(** * CerealBar agent: the training driver and the model-wrapper base class

    A shallow embedding of

    - [agent/learning/training.py]: the [train] driver, and
    - [agent/model/model_wrappers/model_wrapper.py]: the [ModelWrapper]
      abstract base class,

    together with the properties their specification states about them.

    Python strings are [string]; a raised exception is a value of [Exn];
    calls into collaborators that live outside these two files are
    recorded in an event trace and answered by an explicit environment. *)

From Stdlib Require Import String Ascii List Bool Arith Lia.
From stdpp Require Import base option strings pretty gmap list.
Import ListNotations.

Local Open Scope string_scope.
Local Open Scope list_scope.

(** ** Shared data *)

(** Modelled from the spec: [model_args.Task] is declared outside the two
    files. The spec calls it the "configuration enum selecting which
    downstream objective/evaluation path a model wrapper implements"; the
    driver names two of its members, and [OTHER_TASK] stands for every
    further member the enum may have. *)
Inductive Task : Type :=
| PLAN_PREDICTOR
| ACTION_GENERATOR
| OTHER_TASK (tag : nat).

Definition Task_eqb (a b : Task) : bool :=
  match a, b with
  | PLAN_PREDICTOR, PLAN_PREDICTOR => true
  | ACTION_GENERATOR, ACTION_GENERATOR => true
  | OTHER_TASK m, OTHER_TASK n => Nat.eqb m n
  | _, _ => false
  end.

(** The Python exceptions the two files can raise themselves, and
    [ExternalError] for whatever a collaborator raises. *)
Inductive Exn : Type :=
| NameError (name : string)
| AssertionError
| AttributeError (attribute : string)
| StopIteration
| FileNotFoundError (filename : string)
| ExternalError (what : string).

(** ** Python string operations used by the driver *)

Module PyStr.

(** [s.split(sep)] for a one-character separator: the pieces between the
    occurrences of [sep], in order; never the empty list. *)
Fixpoint split (sep : ascii) (s : string) : list string :=
  match s with
  | EmptyString => [EmptyString]
  | String c rest =>
      if Ascii.eqb c sep then EmptyString :: split sep rest
      else match split sep rest with
           | [] => [String c EmptyString]
           | piece :: pieces => String c piece :: pieces
           end
  end.

(** [sep.join(pieces)]. *)
Fixpoint join (sep : string) (pieces : list string) : string :=
  match pieces with
  | [] => EmptyString
  | [piece] => piece
  | piece :: rest => piece +:+ sep +:+ join sep rest
  end.

(** [l[:-1]]: everything but the last element; the empty list stays
    empty. *)
Definition all_but_last {A} (l : list A) : list A := removelast l.

(** [c in s]. *)
Fixpoint contains (c : ascii) (s : string) : bool :=
  match s with
  | EmptyString => false
  | String d rest => Ascii.eqb d c || contains c rest
  end.

End PyStr.

Definition slash : ascii := "/"%char.

(** training.py, lines 71-72: the expression bound to [vocab_file],
    ['/'.join(filepath.split('/')[:-1])]. *)
Definition vocab_file (pretrained_plan_predictor_filepath : string) : string :=
  PyStr.join "/" (PyStr.all_but_last (PyStr.split slash pretrained_plan_predictor_filepath)).

(** The directory part of a filepath, as the parent directory is told
    from a path: what stands before the last ['/'], and the empty string
    when the path has none. *)
Definition parent_directory (filepath directory : string) : Prop :=
  (exists file, PyStr.contains slash file = false /\
                filepath = directory +:+ String slash file) \/
  (PyStr.contains slash filepath = false /\ directory = EmptyString).

(** What a Python call does: it returns a value or raises. *)
Inductive Outcome (A : Type) : Type :=
| Returns (value : A)
| Raises (e : Exn).
Arguments Returns {A} value.
Arguments Raises {A} e.

(** Sequencing, in stdpp's monad notation [x ← o; k]: a raised exception
    skips the rest. *)
#[global] Instance Outcome_ret : MRet Outcome := @Returns.
#[global] Instance Outcome_bind : MBind Outcome := fun A B k o =>
  match o with
  | Returns a => k a
  | Raises e => Raises e
  end.

(** ** Configuration objects

    Modelled from the spec: the argument classes ([program_args],
    [training_args], [model_args]) are declared outside the two files.
    The spec describes the "configuration bundle: immutable arguments
    object partitioned into sub-configs (data, game, model, training,
    evaluation), consumed read-only"; each record holds what the getter
    of the same name returns. *)
Module model_args.

Record DecoderArgs : Type := {
  pretrained_plan_predictor : bool;
  pretrained_plan_predictor_filepath : string;
  end_to_end : bool
}.

Record ModelArgs : Type := {
  get_task : Task;
  get_decoder_args : DecoderArgs
}.

End model_args.

Module training_args.

Record TrainingArgs : Type := {
  get_experiment_name : string;
  log_with_slack : bool;
  get_save_directory : string
}.

End training_args.

(** ** model_wrapper.py *)

Module model_wrapper.

Section Definitions.

(** A parameter tensor, a logging handle, and the arguments and results
    of the inference entry point are opaque to the wrapper. *)
Context {Tensor Logger PredictionArgs Predictions : Type}.

(** *** The numerical framework's modules, as far as the wrapper uses them *)

(** A concrete network of the repository (a subclass of [nn.Module]):
    its named parameters in registration order, its train/eval mode and
    the device its parameters are on. *)
Record Net : Type := {
  net_parameters : list (string * Tensor);
  net_training : bool;
  net_is_cuda : bool
}.

(** What [self._model] can hold: [None], a network, or [nn.DataParallel]
    around whatever it was given, which its [.module] attribute returns. *)
Inductive Model : Type :=
| NoneModel
| Network (net : Net)
| DataParallel (module : Model).

(** The parameters a module registers, with their names: a container
    registers those of its submodule [module] under the prefix
    ["module."]; a container around [None] has no submodule. *)
Fixpoint registered_parameters (m : Model) : list (string * Tensor) :=
  match m with
  | NoneModel => []
  | Network net => net_parameters net
  | DataParallel inner =>
      map (fun p => ("module." +:+ fst p, snd p)) (registered_parameters inner)
  end.

(** Setting the mode of a module and of all its submodules. *)
Fixpoint set_training (mode : bool) (m : Model) : Model :=
  match m with
  | NoneModel => NoneModel
  | Network net =>
      Network {| net_parameters := net_parameters net;
                 net_training := mode;
                 net_is_cuda := net_is_cuda net |}
  | DataParallel inner => DataParallel (set_training mode inner)
  end.

(** Moving every parameter of a module to the device. *)
Fixpoint to_cuda (m : Model) : Model :=
  match m with
  | NoneModel => NoneModel
  | Network net =>
      Network {| net_parameters := net_parameters net;
                 net_training := net_training net;
                 net_is_cuda := true |}
  | DataParallel inner => DataParallel (to_cuda inner)
  end.

(** [m.named_parameters()], [m.parameters()], [m.train()], [m.eval()] and
    [m.cuda()] of [nn.Module]; [None] has no attributes. [train], [eval]
    and [cuda] return the module they were called on. *)
Definition nn_named_parameters (m : Model) : Outcome (list (string * Tensor)) :=
  match m with
  | NoneModel => Raises (AttributeError "named_parameters")
  | _ => Returns (registered_parameters m)
  end.

Definition nn_parameters (m : Model) : Outcome (list Tensor) :=
  match m with
  | NoneModel => Raises (AttributeError "parameters")
  | _ => Returns (map snd (registered_parameters m))
  end.

Definition nn_train (m : Model) : Outcome Model :=
  match m with
  | NoneModel => Raises (AttributeError "train")
  | _ => Returns (set_training true m)
  end.

Definition nn_eval (m : Model) : Outcome Model :=
  match m with
  | NoneModel => Raises (AttributeError "eval")
  | _ => Returns (set_training false m)
  end.

Definition nn_cuda (m : Model) : Outcome Model :=
  match m with
  | NoneModel => Raises (AttributeError "cuda")
  | _ => Returns (to_cuda m)
  end.

(** [m.module]: only the container has the attribute. *)
Definition attr_module (m : Model) : Outcome Model :=
  match m with
  | DataParallel inner => Returns inner
  | _ => Raises (AttributeError "module")
  end.

(** A checkpoint file holds named parameters; the file system maps a path
    to the checkpoint stored there. *)
Definition Checkpoint : Type := list (string * Tensor).
Abbreviation Files := (gmap string Checkpoint).

(** Modelled from the spec: the [save] and [load] methods of the concrete
    networks are defined outside the two files. In the spec's words they
    "persist/restore the owned module's parameters to/from a path";
    loading from a path that holds no checkpoint raises. *)
Definition net_save (net : Net) (filename : string) (fs : Files) : Files :=
  <[filename := net_parameters net]> fs.

Definition net_load (net : Net) (filename : string) (fs : Files) : Outcome Net :=
  match fs !! filename with
  | Some checkpoint =>
      Returns {| net_parameters := checkpoint;
                 net_training := net_training net;
                 net_is_cuda := net_is_cuda net |}
  | None => Raises (FileNotFoundError filename)
  end.

(** The inference entry point of the concrete networks, also defined
    outside the two files, is a parameter. *)
Variable net_get_predictions : Net -> PredictionArgs -> Predictions.

(** [m.save(filename)], [m.load(filename)] and [m.get_predictions(...)]
    on whatever [m] is: neither [None] nor [nn.DataParallel] has any of
    the three attributes. [load] mutates the network in place; the
    network after the call is returned. *)
Definition module_save (m : Model) (filename : string) (fs : Files)
  : Outcome unit * Files :=
  match m with
  | Network net => (Returns tt, net_save net filename fs)
  | _ => (Raises (AttributeError "save"), fs)
  end.

Definition module_load (m : Model) (filename : string) (fs : Files)
  : Outcome Model :=
  match m with
  | Network net => net' ← net_load net filename fs; Returns (Network net')
  | _ => Raises (AttributeError "load")
  end.

Definition module_get_predictions (m : Model) (args : PredictionArgs)
  : Outcome Predictions :=
  match m with
  | Network net => Returns (net_get_predictions net args)
  | _ => Raises (AttributeError "get_predictions")
  end.

(** *** The wrapper object *)

Record ModelWrapper : Type := {
  _args : model_args.ModelArgs;
  _task : Task;
  _parallelized : bool;
  _model : Model;
  _logger : option Logger
}.

(** The assignment [self._model = m]. *)
Definition set_model (self : ModelWrapper) (m : Model) : ModelWrapper :=
  {| _args := _args self; _task := _task self;
     _parallelized := _parallelized self;
     _model := m; _logger := _logger self |}.

(** [ModelWrapper.__init__] (lines 24-37); [device_count] is what
    [torch.cuda.device_count()] answers. The [logging.info] line leaves
    the object alone and is not part of the model. *)
Definition __init__ (device_count : nat)
    (model_arguments : model_args.ModelArgs) (logger : option Logger)
  : ModelWrapper :=
  {| _args := model_arguments;
     _task := model_args.get_task model_arguments;
     _parallelized := if (1 <? device_count)%nat then true else false;
     _model := NoneModel;
     _logger := logger |}.

(** [ModelWrapper.__str__] (lines 39-40): [str(self._model)]; how the
    framework prints a module is a parameter. *)
Variable module_repr : Model -> string.

Definition __str__ (self : ModelWrapper) : string := module_repr (_model self).

(** [ModelWrapper._put_on_device] (lines 42-50). The two assignments to
    [self._model] happen before the last line can raise, so the wrapper
    after the call is returned next to the outcome. [next(...)] of an
    empty parameter iterator raises [StopIteration]. *)
Definition _put_on_device (device_count : nat) (self : ModelWrapper)
  : Outcome unit * ModelWrapper :=
  let self1 :=
    if _parallelized self then set_model self (DataParallel (_model self))
    else self in
  let placed :=
    if (0 <? device_count)%nat then nn_cuda (_model self1)
    else Returns (_model self1) in
  match placed with
  | Raises e => (Raises e, self1)
  | Returns m =>
      let self2 := set_model self1 m in
      match nn_parameters (_model self2) with
      | Raises e => (Raises e, self2)
      | Returns [] => (Raises StopIteration, self2)
      | Returns (_ :: _) => (Returns tt, self2)
      end
  end.

(** [ModelWrapper.named_parameters] (lines 64-68). *)
Definition named_parameters (self : ModelWrapper) : Outcome (list (string * Tensor)) :=
  if _parallelized self then
    inner ← attr_module (_model self); nn_named_parameters inner
  else
    nn_named_parameters (_model self).

(** [ModelWrapper.get_arguments] (lines 70-71). *)
Definition get_arguments (self : ModelWrapper) : model_args.ModelArgs := _args self.

(** [ModelWrapper.parameters] (lines 73-74): asked of [self._model]
    itself, container or not. *)
Definition parameters (self : ModelWrapper) : Outcome (list Tensor) :=
  nn_parameters (_model self).

(** [ModelWrapper.train] and [ModelWrapper.eval] (lines 76-80): the mode
    is set in place and the module itself is returned. *)
Definition train (self : ModelWrapper) : Outcome Model * ModelWrapper :=
  match nn_train (_model self) with
  | Raises e => (Raises e, self)
  | Returns m => (Returns m, set_model self m)
  end.

Definition eval (self : ModelWrapper) : Outcome Model * ModelWrapper :=
  match nn_eval (_model self) with
  | Raises e => (Raises e, self)
  | Returns m => (Returns m, set_model self m)
  end.

(** [ModelWrapper.load] (lines 82-86). The network that [load] mutates
    is the object the container refers to, so the container holds the
    loaded network afterwards. *)
Definition load (self : ModelWrapper) (filename : string) (fs : Files)
  : Outcome unit * ModelWrapper :=
  if _parallelized self then
    match inner ← attr_module (_model self); module_load inner filename fs with
    | Raises e => (Raises e, self)
    | Returns inner' => (Returns tt, set_model self (DataParallel inner'))
    end
  else
    match module_load (_model self) filename fs with
    | Raises e => (Raises e, self)
    | Returns m' => (Returns tt, set_model self m')
    end.

(** [ModelWrapper.save] (lines 88-92). *)
Definition save (self : ModelWrapper) (filename : string) (fs : Files)
  : Outcome unit * Files :=
  if _parallelized self then
    match attr_module (_model self) with
    | Raises e => (Raises e, fs)
    | Returns inner => module_save inner filename fs
    end
  else
    module_save (_model self) filename fs.

(** [ModelWrapper.get_predictions] (lines 94-99). *)
Definition get_predictions (self : ModelWrapper) (args : PredictionArgs)
  : Outcome Predictions :=
  if _parallelized self then
    inner ← attr_module (_model self); module_get_predictions inner args
  else
    module_get_predictions (_model self) args.

(** [ModelWrapper.get_task] (lines 101-102). *)
Definition get_task (self : ModelWrapper) : Task := _task self.

(** *** The life of a wrapper *)

(** The network a wrapper owns when its module was attached and put on
    the device once: the module itself, or the module inside exactly one
    container when the wrapper is parallelized. *)
Definition owned_network (self : ModelWrapper) : option Net :=
  match _parallelized self, _model self with
  | true, DataParallel (Network net) => Some net
  | false, Network net => Some net
  | _, _ => None
  end.

(** Modelled from the spec: the constructors of the concrete variants
    are outside the two files. In the spec's words the base class decides
    at construction whether it is parallelized "and, when the underlying
    module is later attached, wrap[s] it transparently for data-parallel
    execution across devices": the variant assigns its network to
    [self._model] and calls [_put_on_device]. *)
Definition construct (device_count : nat)
    (model_arguments : model_args.ModelArgs) (logger : option Logger)
    (net : Net) : Outcome unit * ModelWrapper :=
  _put_on_device device_count
    (set_model (__init__ device_count model_arguments logger) (Network net)).

(** The wrapper together with the checkpoint files it reads and writes. *)
Record State : Type := {
  self : ModelWrapper;
  files : Files
}.

(** Rewriting the parameter tensors of the network inside a module, as
    an optimizer step does. *)
Fixpoint update_parameters
    (step : list (string * Tensor) -> list (string * Tensor)) (m : Model) : Model :=
  match m with
  | NoneModel => NoneModel
  | Network net =>
      Network {| net_parameters := step (net_parameters net);
                 net_training := net_training net;
                 net_is_cuda := net_is_cuda net |}
  | DataParallel inner => DataParallel (update_parameters step inner)
  end.

(** Modelled from the spec: [train_loop] is abstract in the base class
    and its implementations are outside the two files. The spec's state
    machine has "repeated train/eval mode toggles and loss computations
    during [train_loop] -> final save", and the loop returns "the
    filesystem path of the best checkpoint found". A loop is a sequence
    of such steps; a loss computation with the optimizer's update
    rewrites the parameter tensors of the owned network. *)
Inductive LoopStep : Type :=
| loop_train
| loop_eval
| loop_update (step : list (string * Tensor) -> list (string * Tensor))
| loop_save (filename : string).

Definition loop_step (st : State) (s : LoopStep) : State :=
  match s with
  | loop_train => {| self := snd (train (self st)); files := files st |}
  | loop_eval => {| self := snd (eval (self st)); files := files st |}
  | loop_update step =>
      {| self := set_model (self st) (update_parameters step (_model (self st)));
         files := files st |}
  | loop_save filename =>
      {| self := self st; files := snd (save (self st) filename (files st)) |}
  end.

Definition train_loop (steps : list LoopStep) (best_epoch_filename : string)
    (st : State) : Outcome string * State :=
  (Returns best_epoch_filename, fold_left loop_step steps st).

(** Everything that can be done to a wrapper: the methods of the base
    class, the assignment of a network to [self._model] by a variant's
    constructor, and the variant's [train_loop]. *)
Inductive Call : Type :=
| call_assign_model (net : Net)
| call_str
| call_put_on_device (device_count : nat)
| call_named_parameters
| call_get_arguments
| call_parameters
| call_train
| call_eval
| call_load (filename : string)
| call_save (filename : string)
| call_get_predictions (args : PredictionArgs)
| call_get_task
| call_train_loop (steps : list LoopStep) (best_epoch_filename : string).

(** The wrapper and the files after a call, whether it returned or
    raised. *)
Definition state_after (st : State) (c : Call) : State :=
  match c with
  | call_assign_model net =>
      {| self := set_model (self st) (Network net); files := files st |}
  | call_put_on_device device_count =>
      {| self := snd (_put_on_device device_count (self st)); files := files st |}
  | call_train => {| self := snd (train (self st)); files := files st |}
  | call_eval => {| self := snd (eval (self st)); files := files st |}
  | call_load filename =>
      {| self := snd (load (self st) filename (files st)); files := files st |}
  | call_save filename =>
      {| self := self st; files := snd (save (self st) filename (files st)) |}
  | call_train_loop steps best => snd (train_loop steps best st)
  | call_str | call_named_parameters | call_get_arguments | call_parameters
  | call_get_predictions _ | call_get_task => st
  end.

Definition lifetime (calls : list Call) (st : State) : State :=
  fold_left state_after calls st.

(** Two wrappers that differ at most in [self._model]. *)
Definition same_frame (a b : ModelWrapper) : Prop :=
  _args a = _args b /\ _task a = _task b /\
  _parallelized a = _parallelized b /\ _logger a = _logger b.

(** A network in the given mode, and a network on the device when at
    least one device is there. *)
Definition in_mode (mode : bool) (net : Net) : Net :=
  {| net_parameters := net_parameters net;
     net_training := mode;
     net_is_cuda := net_is_cuda net |}.

Definition placed (device_count : nat) (net : Net) : Net :=
  {| net_parameters := net_parameters net;
     net_training := net_training net;
     net_is_cuda := (0 <? device_count)%nat || net_is_cuda net |}.

(** The calls of the base class that use the attached module without
    attaching or wrapping one: all of them but the assignment of a
    network, [_put_on_device] and a variant's [train_loop]. *)
Definition uses_model (c : Call) : bool :=
  match c with
  | call_assign_model _ | call_put_on_device _ | call_train_loop _ _ => false
  | _ => true
  end.

(** Those among them that do not read a checkpoint. *)
Definition keeps_parameters (c : Call) : bool :=
  match c with
  | call_load _ => false
  | _ => uses_model c
  end.

End Definitions.
End model_wrapper.

(** ** training.py *)

Module training.

Inductive DatasetSplit : Type := TRAIN | DEV.

Section Definitions.

(** The objects the collaborators hand to the driver (the experiment
    handle, the loaded splits, the dataset, the model wrapper, metrics,
    floats) are opaque to it, as are the data, game and evaluation
    sub-configurations. *)
Context {Object DataArgs GameArgs EvaluationArgs : Type}.

(** Modelled from the spec: [program_args.ProgramArgs], declared outside
    the two files; see [model_args]. *)
Record ProgramArgs : Type := {
  get_training_args : training_args.TrainingArgs;
  get_model_args : model_args.ModelArgs;
  get_data_args : DataArgs;
  get_game_args : GameArgs;
  get_evaluation_args : EvaluationArgs
}.

(** The collaborators of the driver, none of them in the two files. A
    call that reads or writes files, talks to the network, builds,
    trains, evaluates, converts or formats may raise; a getter of an
    object already in memory returns. [global_object] is the object a
    name of the module is bound to, when it is bound. *)
Record World : Type := {
  CrayonClient : string -> Outcome Object;
  create_experiment : Object -> string -> Outcome Object;
  send_slack_message : string -> string -> string -> Outcome unit;
  save_args : ProgramArgs -> string -> Outcome unit;
  load_data : DatasetSplit -> DataArgs -> GameArgs -> Outcome Object;
  get_games : Object -> DatasetSplit -> Object;
  GameDataset : Object -> Object -> DataArgs -> bool -> bool -> Outcome Object;
  len : Object -> nat;
  save_validation_split : Object -> string -> Outcome unit;
  load_vocabulary : string -> Outcome (list string);
  get_instruction_vocabulary : Object -> list string;
  save_vocabulary : Object -> string -> Outcome unit;
  get_model_wrapper :
    model_args.ModelArgs -> training_args.TrainingArgs -> list string -> bool ->
    Outcome Object;
  train_loop :
    Object -> Object -> GameArgs -> EvaluationArgs -> training_args.TrainingArgs ->
    Object -> Outcome string;
  load : Object -> string -> Outcome unit;
  get_examples : Object -> DatasetSplit -> Object;
  plan_metric_results : Object -> Object -> Outcome Object;
  isinstance_ActionGeneratorModelWrapper : Object -> bool;
  values : Object -> list Object;
  execution_accuracies :
    Object -> GameArgs -> EvaluationArgs -> list Object -> Outcome (list (Object * Object));
  str : Object -> Outcome string;
  times_100 : Object -> Outcome Object;
  format_2f : Object -> Outcome string;
  global_object : string -> Object
}.

(** What a run of the driver does to the outside, in order. *)
Inductive Event : Type :=
| E_CrayonClient (hostname : string)
| E_create_experiment (name : string)
| E_logging_info (message : string)
| E_logging_info_object (o : Object)
| E_send_slack_message (username message channel : string)
| E_save_args (directory : string)
| E_load_data (split : DatasetSplit)
| E_GameDataset (train_games dev_games : Object) (randomly_split_trainval presaved : bool)
| E_save_validation_split (dataset : Object) (directory : string)
| E_load_vocabulary (directory : string)
| E_save_vocabulary (dataset : Object) (directory : string)
| E_get_model_wrapper (vocabulary : list string) (load_pretrained : bool)
| E_train_loop (model dataset experiment : Object)
| E_load (model : Object) (filename : string)
| E_plan_metric_results (model examples : Object)
| E_print (o : Object)
| E_execution_accuracies (model : Object) (instruction_examples : list Object).

(** The stage of the driver an event belongs to; logging, printing and
    notification happen at every stage. *)
Inductive Stage : Type := Reporting | Setup | Vocabulary | Fitting | Evaluation.

Definition stage (e : Event) : Stage :=
  match e with
  | E_logging_info _ | E_logging_info_object _
  | E_send_slack_message _ _ _ | E_print _ => Reporting
  | E_CrayonClient _ | E_create_experiment _ | E_save_args _ | E_load_data _
  | E_GameDataset _ _ _ _ | E_save_validation_split _ _ => Setup
  | E_load_vocabulary _ | E_save_vocabulary _ _ => Vocabulary
  | E_get_model_wrapper _ _ | E_train_loop _ _ _ | E_load _ _ => Fitting
  | E_plan_metric_results _ _ | E_execution_accuracies _ _ => Evaluation
  end.

(** A trace that stays within one stage. *)
Definition within (s : Stage) (trace : list Event) : Prop :=
  Forall (fun e => stage e = Reporting \/ stage e = s) trace.

(** A piece of the driver: the events it caused and how it ended. *)
Definition Run (A : Type) : Type := list Event * Outcome A.

#[global] Instance Run_ret : MRet Run := fun A a => ([], Returns a).
#[global] Instance Run_bind : MBind Run := fun A B k r =>
  match r with
  | (trace, Returns a) => (trace ++ fst (k a), snd (k a))
  | (trace, Raises e) => (trace, Raises e)
  end.

(** A call of a collaborator, [logging.info], and [raise]. *)
Definition call {A} (e : Event) (o : Outcome A) : Run A := ([e], o).
Definition logging_info (message : string) : Run unit :=
  ([E_logging_info message], Returns tt).
Definition raise {A} (e : Exn) : Run A := ([], Raises e).

(** A computation that calls no collaborator of the trace. *)
Definition compute {A} (o : Outcome A) : Run A := ([], o).

(** [str(n)] for a length. *)
Definition str_nat (n : nat) : string := pretty n.

(** Line 25. *)
Definition SLACK_CHANNEL : string := "".

Variable W : World.
Variable args : ProgramArgs.

Definition training_arguments : training_args.TrainingArgs := get_training_args args.
Definition decoder_args : model_args.DecoderArgs :=
  model_args.get_decoder_args (get_model_args args).
Definition experiment_name : string :=
  training_args.get_experiment_name training_arguments.
Definition save_directory : string :=
  training_args.get_save_directory training_arguments.

(** [if training_arguments.log_with_slack(): util.send_slack_message(...)]. *)
Definition slack (message : string) : Run unit :=
  call (E_send_slack_message experiment_name message SLACK_CHANNEL)
       (send_slack_message W experiment_name message SLACK_CHANNEL).

(** The names [train] binds to objects in lines 35-61. *)
Record Locals : Type := {
  crayon_client : Object;
  experiment : Object;
  train_dataset : Object;
  dev_dataset : Object;
  dataset : Object
}.

(** The body of [train] is four consecutive blocks. Lines 35-66: the
    experiment, the saved arguments, the data. *)
Definition load_dataset : Run Locals :=
  crayon_client ← call (E_CrayonClient "localhost") (CrayonClient W "localhost");
  _ ← logging_info ("Starting experiment: " +:+ experiment_name);
  experiment ← call (E_create_experiment experiment_name)
                    (create_experiment W crayon_client experiment_name);
  _ ← (if training_args.log_with_slack training_arguments
       then slack "Starting!" else mret tt);
  _ ← call (E_save_args save_directory) (save_args W args save_directory);
  train_dataset ← call (E_load_data TRAIN)
                       (load_data W TRAIN (get_data_args args) (get_game_args args));
  dev_dataset ← call (E_load_data DEV)
                     (load_data W DEV (get_data_args args) (get_game_args args));
  let train_games := get_games W train_dataset TRAIN in
  let dev_games := get_games W dev_dataset DEV in
  dataset ← call (E_GameDataset train_games dev_games false true)
                 (GameDataset W train_games dev_games (get_data_args args) false true);
  _ ← logging_info ("Loaded " +:+ str_nat (len W dataset) +:+ " games");
  _ ← call (E_save_validation_split dataset save_directory)
           (save_validation_split W dataset save_directory);
  mret {| crayon_client := crayon_client; experiment := experiment;
          train_dataset := train_dataset; dev_dataset := dev_dataset;
          dataset := dataset |}.

(** Line 67. *)
Definition task : Task := model_args.get_task (get_model_args args).

(** Lines 69-78: the vocabulary. *)
Definition resolve_vocabulary (dataset : Object) : Run (list string) :=
  if model_args.pretrained_plan_predictor decoder_args then
    let vocab_file :=
      vocab_file (model_args.pretrained_plan_predictor_filepath decoder_args) in
    _ ← logging_info ("Loading vocabulary from " +:+ vocab_file);
    call (E_load_vocabulary vocab_file) (load_vocabulary W vocab_file)
  else
    let vocabulary := get_instruction_vocabulary W dataset in
    _ ← call (E_save_vocabulary dataset save_directory)
             (save_vocabulary W dataset save_directory);
    mret vocabulary.

(** Lines 80-98: the model, the training loop, the best checkpoint. *)
Definition fit (experiment dataset : Object) (vocabulary : list string)
  : Run (Object * string) :=
  _ ← logging_info ("Vocabulary contains " +:+ str_nat (length vocabulary)
                    +:+ " word types");
  model ← call (E_get_model_wrapper vocabulary (model_args.end_to_end decoder_args))
               (get_model_wrapper W (get_model_args args) training_arguments
                  vocabulary (model_args.end_to_end decoder_args));
  _ ← logging_info "Created model:";
  _ ← ([E_logging_info_object model], Returns tt);
  best_epoch_filename ←
    call (E_train_loop model dataset experiment)
         (train_loop W model dataset (get_game_args args) (get_evaluation_args args)
            training_arguments experiment);
  _ ← call (E_load model best_epoch_filename) (load W model best_epoch_filename);
  _ ← (if training_args.log_with_slack training_arguments
       then slack ("Model finished training! Best epoch filename: "
                   +:+ best_epoch_filename)
       else mret tt);
  mret (model, best_epoch_filename).

(** The names the module binds when it is imported: lines 2-16, 25 and
    28. The imports of lines 19-22 are under [if TYPE_CHECKING:], which is
    false when the program runs, so [List], [model_args], [training_args]
    and [model_wrapper] are not among them. *)
Definition module_names : list string :=
  ["annotations"; "logging"; "TYPE_CHECKING"; "pycrayon"; "program_args";
   "dataset_split"; "game_dataset"; "loading"; "action_generator_metrics";
   "plan_metrics"; "util"; "action_generator_model_wrapper";
   "create_model_wrapper"; "SLACK_CHANNEL"; "train"].

(** Reading a name that [train] never assigns: it is looked up among the
    names of the module (and then the builtins, which have neither
    [model_args] nor [final_goal_acc]), and [NameError] is raised when
    it is not there. *)
Definition read_global (names : list string) (name : string) : Run Object :=
  if existsb (String.eqb name) names then mret (global_object W name)
  else raise (NameError name).

(** [str(metric_name) + ' after training: ' + '{0:.2f}'.format(result)]
    (lines 122 and 124). *)
Definition after_training (metric_name result : Object) : Run string :=
  name ← compute (str W metric_name);
  number ← compute (format_2f W result);
  mret (name +:+ " after training: " +:+ number).

(** Lines 119-124: the loop over [dict_results.items()]. *)
Fixpoint report (items : list (Object * Object)) : Run unit :=
  match items with
  | [] => mret tt
  | (metric_name, result) :: rest =>
      _ ← (if training_args.log_with_slack training_arguments
           then message ← after_training metric_name result; slack message
           else mret tt);
      message ← after_training metric_name result;
      _ ← logging_info message;
      report rest
  end.

(** Lines 100-124: the evaluation on the development split, with
    [names] the names the module binds. The comparisons of lines 100 and
    111 read the name [model_args], and line 108 reads the name
    [final_goal_acc]; [train] assigns neither, so both are looked up in
    the module. *)
Definition evaluate (names : list string) (locals : Locals) (model : Object)
  : Run unit :=
  _ ← read_global names "model_args";
  if Task_eqb task PLAN_PREDICTOR then
    _ ← logging_info "Running on dev after training for plan prediction...";
    predictions ← call (E_plan_metric_results model (get_examples W (dataset locals) DEV))
                       (plan_metric_results W model (get_examples W (dataset locals) DEV));
    _ ← ([E_print predictions], Returns tt);
    if training_args.log_with_slack training_arguments then
      final_goal_acc ← read_global names "final_goal_acc";
      percentage ← compute (times_100 W final_goal_acc);
      number ← compute (format_2f W percentage);
      slack ("Final goal-prediction accuracy: " +:+ number +:+ "%")
    else mret tt
  else
    _ ← read_global names "model_args";
    if Task_eqb task ACTION_GENERATOR then
      _ ← logging_info "Running on dev after training for action prediction...";
      _ ← (if isinstance_ActionGeneratorModelWrapper W model
           then mret tt else raise AssertionError);
      let instruction_examples := values W (get_examples W (dataset locals) DEV) in
      dict_results ← call (E_execution_accuracies model instruction_examples)
                          (execution_accuracies W model (get_game_args args)
                             (get_evaluation_args args) instruction_examples);
      report dict_results
    else mret tt.

(** Lines 35-98, up to the reloaded best checkpoint. *)
Definition train_model : Run (Locals * Object) :=
  locals ← load_dataset;
  vocabulary ← resolve_vocabulary (dataset locals);
  '(model, _) ← fit (experiment locals) (dataset locals) vocabulary;
  mret (locals, model).

(** [train] (lines 28-124), run in the module as it is imported. *)
Definition train : Run unit :=
  '(locals, model) ← train_model;
  evaluate module_names locals model.

End Definitions.
End training.

(** ** Sample inputs

    A network with two parameters, wrappers built on one and on two
    devices, and a run of the driver in which every collaborator
    returns. Opaque objects are numbered. *)
Module sample.

Definition decoder (pretrained : bool) : model_args.DecoderArgs :=
  {| model_args.pretrained_plan_predictor := pretrained;
     model_args.pretrained_plan_predictor_filepath := "experiments/run3/model_17.pt";
     model_args.end_to_end := false |}.

Definition model_arguments (task : Task) (pretrained : bool) : model_args.ModelArgs :=
  {| model_args.get_task := task;
     model_args.get_decoder_args := decoder pretrained |}.

Definition net : @model_wrapper.Net nat :=
  {| model_wrapper.net_parameters := [("embedding.weight", 3); ("decoder.bias", 5)];
     model_wrapper.net_training := true;
     model_wrapper.net_is_cuda := false |}.

Definition other_net : @model_wrapper.Net nat :=
  {| model_wrapper.net_parameters := [("embedding.weight", 0); ("decoder.bias", 0)];
     model_wrapper.net_training := false;
     model_wrapper.net_is_cuda := false |}.

(** [net] once it is on the device. *)
Definition net_on_device : @model_wrapper.Net nat :=
  {| model_wrapper.net_parameters := [("embedding.weight", 3); ("decoder.bias", 5)];
     model_wrapper.net_training := true;
     model_wrapper.net_is_cuda := true |}.

Definition other_net_on_device : @model_wrapper.Net nat :=
  {| model_wrapper.net_parameters := [("embedding.weight", 0); ("decoder.bias", 0)];
     model_wrapper.net_training := false;
     model_wrapper.net_is_cuda := true |}.

Definition predict (n : @model_wrapper.Net nat) (args : nat) : nat :=
  args + length (model_wrapper.net_parameters n).

Definition wrapper (device_count : nat) (n : @model_wrapper.Net nat)
  : @model_wrapper.ModelWrapper nat unit :=
  snd (model_wrapper.construct device_count
         (model_arguments PLAN_PREDICTOR false) None n).

(** A network without parameters, and a wrapper to which a network has
    been assigned but which has not been put on the device yet. *)
Definition empty_net : @model_wrapper.Net nat :=
  {| model_wrapper.net_parameters := [];
     model_wrapper.net_training := true;
     model_wrapper.net_is_cuda := false |}.

Definition assigned (device_count : nat) (n : @model_wrapper.Net nat)
  : @model_wrapper.ModelWrapper nat unit :=
  model_wrapper.set_model
    (model_wrapper.__init__ device_count (model_arguments PLAN_PREDICTOR false) None)
    (model_wrapper.Network n).

(** A stretch of a wrapper's life without [load]. *)
Definition calls : list (@model_wrapper.Call nat nat) :=
  [model_wrapper.call_train; model_wrapper.call_save "best.pt";
   model_wrapper.call_get_predictions 40; model_wrapper.call_eval;
   model_wrapper.call_named_parameters].

Definition training_arguments (slack : bool) : training_args.TrainingArgs :=
  {| training_args.get_experiment_name := "run4";
     training_args.log_with_slack := slack;
     training_args.get_save_directory := "experiments/run4" |}.

Definition args (task : Task) (pretrained slack : bool)
  : @training.ProgramArgs unit unit unit :=
  {| training.get_training_args := training_arguments slack;
     training.get_model_args := model_arguments task pretrained;
     training.get_data_args := tt;
     training.get_game_args := tt;
     training.get_evaluation_args := tt |}.

Definition world (action_generator_wrapper : bool)
  : @training.World nat unit unit unit :=
  {| training.CrayonClient := fun _ => Returns 0;
     training.create_experiment := fun _ _ => Returns 1;
     training.send_slack_message := fun _ _ _ => Returns tt;
     training.save_args := fun _ _ => Returns tt;
     training.load_data := fun split _ _ =>
       Returns (match split with training.TRAIN => 2 | training.DEV => 3 end);
     training.get_games := fun o _ => 10 + o;
     training.GameDataset := fun _ _ _ _ _ => Returns 4;
     training.len := fun _ => 7;
     training.save_validation_split := fun _ _ => Returns tt;
     training.load_vocabulary := fun _ => Returns ["go"; "left"];
     training.get_instruction_vocabulary := fun _ => ["turn"; "right"];
     training.save_vocabulary := fun _ _ => Returns tt;
     training.get_model_wrapper := fun _ _ _ _ => Returns 5;
     training.train_loop := fun _ _ _ _ _ _ => Returns "experiments/run4/model_9.pt";
     training.load := fun _ _ => Returns tt;
     training.get_examples := fun _ _ => 6;
     training.plan_metric_results := fun _ _ => Returns 8;
     training.isinstance_ActionGeneratorModelWrapper :=
       fun _ => action_generator_wrapper;
     training.values := fun _ => [9];
     training.execution_accuracies := fun _ _ _ _ => Returns [(20, 21)];
     training.str := fun _ => Returns "accuracy";
     training.times_100 := fun o => Returns o;
     training.format_2f := fun _ => Returns "0.50";
     training.global_object := fun _ => 30 |}.

Definition locals : @training.Locals nat :=
  {| training.crayon_client := 0; training.experiment := 1;
     training.train_dataset := 2; training.dev_dataset := 3;
     training.dataset := 4 |}.

End sample.

(** * Properties *)

(** ** The vocabulary directory *)

Example vocab_file_nested :
  vocab_file "experiments/run3/model_17.pt" = "experiments/run3".
Proof. reflexivity. Qed.

Example vocab_file_flat : vocab_file "model_17.pt" = "".
Proof. reflexivity. Qed.

Example vocab_file_root : vocab_file "/model_17.pt" = "".
Proof. reflexivity. Qed.

Example vocab_file_trailing : vocab_file "a//b/" = "a//b".
Proof. reflexivity. Qed.

Section SplitJoin.

Variable sep : ascii.

Lemma split_not_nil (s : string) : PyStr.split sep s <> [].
Proof.
  destruct s as [|c s]; simpl; [discriminate|].
  destruct (Ascii.eqb c sep); [discriminate|].
  destruct (PyStr.split sep s); discriminate.
Qed.

(** A string without the separator is one piece. *)
Lemma split_without_sep (s : string) :
  PyStr.contains sep s = false -> PyStr.split sep s = [s].
Proof.
  induction s as [|c s IH]; simpl; [reflexivity|].
  destruct (Ascii.eqb c sep); simpl; [discriminate|].
  intros H. rewrite (IH H). reflexivity.
Qed.

(** Splitting distributes over a separator in the middle. *)
Lemma split_app_sep (a b : string) :
  PyStr.split sep (a +:+ String sep b) = PyStr.split sep a ++ PyStr.split sep b.
Proof.
  induction a as [|c a IH]; simpl.
  - rewrite Ascii.eqb_refl. reflexivity.
  - destruct (Ascii.eqb c sep); [now rewrite IH|].
    rewrite IH. pose proof (split_not_nil a) as Hne.
    destruct (PyStr.split sep a); [contradiction|reflexivity].
Qed.

(** Joining the pieces with the separator gives the string back. *)
Lemma join_split (s : string) :
  PyStr.join (String sep EmptyString) (PyStr.split sep s) = s.
Proof.
  induction s as [|c s IH]; [reflexivity|].
  pose proof (split_not_nil s) as Hne. simpl.
  destruct (Ascii.eqb_spec c sep) as [->|_].
  - destruct (PyStr.split sep s) as [|w ws]; [contradiction|].
    change (PyStr.join (String sep "") ("" :: w :: ws))
      with (String sep (PyStr.join (String sep "") (w :: ws))).
    now rewrite IH.
  - destruct (PyStr.split sep s) as [|w ws]; [contradiction|].
    destruct ws as [|w' ws]; simpl in *; now rewrite <- IH.
Qed.

End SplitJoin.

(** C10. The directory the pretrained vocabulary is loaded from is the
    part of the pretrained plan predictor's filepath before its last
    ['/']: for a filepath [a/b] whose last component [b] has no ['/'] it
    is [a], and for a filepath without any ['/'] it is the empty string. *)
Theorem vocab_file_before_last_slash :
  (forall a b : string,
      PyStr.contains slash b = false -> vocab_file (a +:+ String slash b) = a) /\
  (forall p : string, PyStr.contains slash p = false -> vocab_file p = "").
Proof.
  split.
  - intros a b Hb. unfold vocab_file, PyStr.all_but_last.
    rewrite split_app_sep, (split_without_sep _ _ Hb), removelast_last.
    apply join_split.
  - intros p Hp. unfold vocab_file, PyStr.all_but_last.
    now rewrite (split_without_sep _ _ Hp).
Qed.

Lemma vocab_file_before_last_slash_witness :
  (PyStr.contains slash "model_17.pt" = false /\
   vocab_file ("experiments/run3" +:+ String slash "model_17.pt") = "experiments/run3") /\
  (PyStr.contains slash "model_17.pt" = false /\ vocab_file "model_17.pt" = "").
Proof.
  split; (split; [reflexivity|]).
  - apply (proj1 vocab_file_before_last_slash). reflexivity.
  - apply (proj2 vocab_file_before_last_slash). reflexivity.
Defined.

(** *** Paths with a directory part *)

Section SplitPieces.

Variable sep : ascii.

Lemma split_pieces_without_sep (s : string) :
  Forall (fun piece => PyStr.contains sep piece = false) (PyStr.split sep s).
Proof.
  induction s as [|c s IH]; simpl.
  - repeat constructor.
  - destruct (Ascii.eqb c sep) eqn:Hc; [constructor; [reflexivity|exact IH]|].
    destruct (PyStr.split sep s) as [|w ws]; [repeat constructor; simpl; now rewrite Hc|].
    inversion IH as [|? ? Hw Hws]; subst.
    constructor; [simpl; now rewrite Hc, Hw|exact Hws].
Qed.

(** A string with the separator has at least two pieces. *)
Lemma split_with_sep (s : string) :
  PyStr.contains sep s = true -> removelast (PyStr.split sep s) <> [].
Proof.
  induction s as [|c s IH]; simpl; [discriminate|].
  pose proof (split_not_nil sep s) as Hne.
  destruct (Ascii.eqb c sep); simpl.
  - intros _. destruct (PyStr.split sep s); [contradiction|discriminate].
  - intros H. specialize (IH H).
    destruct (PyStr.split sep s) as [|w [|w' ws]]; [contradiction| |discriminate].
    now apply IH.
Qed.

Lemma append_assoc (a b c : string) : (a +:+ b) +:+ c = a +:+ b +:+ c.
Proof.
  induction a as [|x a IH]; [reflexivity|].
  change (String x ((a +:+ b) +:+ c) = String x (a +:+ b +:+ c)).
  now rewrite IH.
Qed.

Lemma join_app_last (pieces : list string) (b : string) :
  pieces <> [] ->
  PyStr.join (String sep EmptyString) (pieces ++ [b])
  = PyStr.join (String sep EmptyString) pieces +:+ String sep b.
Proof.
  induction pieces as [|x [|y rest] IH]; intros Hne; [contradiction|reflexivity|].
  change (PyStr.join (String sep "") ((x :: y :: rest) ++ [b]))
    with (x +:+ String sep "" +:+ PyStr.join (String sep "") ((y :: rest) ++ [b])).
  rewrite IH by discriminate.
  change (PyStr.join (String sep "") (x :: y :: rest))
    with (x +:+ String sep "" +:+ PyStr.join (String sep "") (y :: rest)).
  now rewrite !append_assoc.
Qed.

End SplitPieces.

(** X16. A filepath that contains a ['/'] is its vocabulary directory,
    a ['/'], and a last component without ['/']: the directory is what
    stands before the last ['/'] and nothing of the path is lost. *)
Theorem filepath_is_directory_and_file (p : string) :
  PyStr.contains slash p = true ->
  exists b, PyStr.contains slash b = false /\
            p = vocab_file p +:+ String slash b.
Proof.
  intros Hp. unfold vocab_file, PyStr.all_but_last.
  pose proof (split_not_nil slash p) as Hne.
  pose proof (split_pieces_without_sep slash p) as Hpieces.
  pose proof (split_with_sep slash p Hp) as Hfront.
  pose proof (join_split slash p) as Hjoin.
  pose proof (app_removelast_last EmptyString Hne) as Hdecompose.
  set (front := removelast (PyStr.split slash p)) in *.
  set (b := List.last (PyStr.split slash p) EmptyString) in *.
  exists b. split.
  - rewrite Forall_forall in Hpieces. apply Hpieces.
    rewrite Hdecompose. apply elem_of_app. right. apply list_elem_of_here.
  - rewrite Hdecompose in Hjoin. rewrite join_app_last in Hjoin by exact Hfront.
    symmetry. exact Hjoin.
Qed.

(** *** The directory part and [vocab_file] agree *)

Lemma vocab_file_parent (p : string) : parent_directory p (vocab_file p).
Proof.
  destruct (PyStr.contains slash p) eqn:Hp.
  - left. unfold vocab_file, PyStr.all_but_last.
    pose proof (split_not_nil slash p) as Hne.
    pose proof (split_pieces_without_sep slash p) as Hpieces.
    pose proof (split_with_sep slash p Hp) as Hfront.
    pose proof (join_split slash p) as Hjoin.
    pose proof (app_removelast_last EmptyString Hne) as Hdecompose.
    set (front := removelast (PyStr.split slash p)) in *.
    set (file := List.last (PyStr.split slash p) EmptyString) in *.
    exists file. split.
    + rewrite Forall_forall in Hpieces. apply Hpieces.
      rewrite Hdecompose. apply elem_of_app. right. apply list_elem_of_here.
    + rewrite Hdecompose in Hjoin.
      rewrite join_app_last in Hjoin by exact Hfront.
      symmetry. exact Hjoin.
  - right. split; [exact Hp|].
    unfold vocab_file, PyStr.all_but_last.
    now rewrite (split_without_sep _ _ Hp).
Qed.

Lemma parent_directory_unique (p directory : string) :
  parent_directory p directory -> directory = vocab_file p.
Proof.
  intros [(file & Hfile & ->)|[Hp ->]]; unfold vocab_file, PyStr.all_but_last.
  - rewrite split_app_sep, (split_without_sep _ _ Hfile), removelast_last.
    symmetry. apply join_split.
  - now rewrite (split_without_sep _ _ Hp).
Qed.

(** ** The model wrapper *)

Section WrapperProperties.

Import model_wrapper.

Context {Tensor Logger PredictionArgs Predictions : Type}.
Variable net_get_predictions : @Net Tensor -> PredictionArgs -> Predictions.

Abbreviation Wrapper := (@ModelWrapper Tensor Logger).
Abbreviation WState := (@State Tensor Logger).
Abbreviation WCall := (@Call Tensor PredictionArgs).

(** *** The operations at the sample inputs *)

(** The container itself lists the parameters under prefixed names; the
    wrapper does not. *)
Example container_named_parameters :
  nn_named_parameters (_model (sample.wrapper 2 sample.net))
  = Returns [("module.embedding.weight", 3); ("module.decoder.bias", 5)].
Proof. reflexivity. Qed.

Example wrapper_named_parameters :
  named_parameters (sample.wrapper 2 sample.net)
  = Returns [("embedding.weight", 3); ("decoder.bias", 5)].
Proof. reflexivity. Qed.

Example parallelized_checkpoint :
  snd (save (sample.wrapper 2 sample.net) "best.pt" ∅) !! "best.pt"
  = Some [("embedding.weight", 3); ("decoder.bias", 5)].
Proof. reflexivity. Qed.

Example load_missing_checkpoint :
  fst (load (sample.wrapper 2 sample.net) "best.pt" ∅)
  = Raises (FileNotFoundError "best.pt").
Proof. reflexivity. Qed.

(** Without a network attached, or wrapped a second time, the wrapper
    cannot reach one. *)
Example put_on_device_without_model :
  fst (_put_on_device 2 (__init__ (Tensor := nat) (Logger := unit) 2
                           (sample.model_arguments PLAN_PREDICTOR false) None))
  = Raises StopIteration.
Proof. reflexivity. Qed.

Example wrapped_twice :
  named_parameters (snd (_put_on_device 2 (sample.wrapper 2 sample.net)))
  = Returns [("module.embedding.weight", 3); ("module.decoder.bias", 5)] /\
  fst (save (snd (_put_on_device 2 (sample.wrapper 2 sample.net))) "best.pt" ∅)
  = Raises (AttributeError "save").
Proof. split; reflexivity. Qed.

(** *** What no call touches *)

Lemma same_frame_refl (a : Wrapper) : same_frame a a.
Proof. repeat split. Qed.

Lemma same_frame_trans (a b c : Wrapper) :
  same_frame a b -> same_frame b c -> same_frame a c.
Proof.
  unfold same_frame. intros (?&?&?&?) (?&?&?&?). repeat split; congruence.
Qed.

Lemma set_model_frame (a : Wrapper) m : same_frame (set_model a m) a.
Proof. repeat split. Qed.

Lemma put_on_device_frame dc (a : Wrapper) :
  same_frame (snd (_put_on_device dc a)) a.
Proof.
  unfold _put_on_device.
  destruct (_parallelized a) eqn:Hp, (0 <? dc)%nat;
    repeat match goal with
           | |- context [match ?o with Returns _ => _ | Raises _ => _ end] =>
               destruct o
           | |- context [match ?l with [] => _ | _ :: _ => _ end] => destruct l
           end;
    simpl; repeat split; simpl; auto.
Qed.

Lemma train_frame (a : Wrapper) : same_frame (snd (train a)) a.
Proof. unfold train. destruct (nn_train _); repeat split. Qed.

Lemma eval_frame (a : Wrapper) : same_frame (snd (eval a)) a.
Proof. unfold eval. destruct (nn_eval _); repeat split. Qed.

Lemma load_frame (a : Wrapper) filename fs :
  same_frame (snd (load a filename fs)) a.
Proof.
  unfold load.
  destruct (_parallelized a);
    match goal with |- context [match ?o with Returns _ => _ | Raises _ => _ end] =>
      destruct o end; repeat split.
Qed.

Lemma loop_step_frame (st : WState) (s : LoopStep) :
  same_frame (self (loop_step st s)) (self st).
Proof.
  destruct s; simpl;
    auto using train_frame, eval_frame, set_model_frame, same_frame_refl.
Qed.

Lemma train_loop_frame steps best (st : WState) :
  same_frame (self (snd (train_loop steps best st))) (self st).
Proof.
  unfold train_loop; simpl. revert st.
  induction steps as [|s steps IH]; intros st; simpl.
  - apply same_frame_refl.
  - eapply same_frame_trans; [apply IH|apply loop_step_frame].
Qed.

Lemma state_after_frame (st : WState) (c : WCall) :
  same_frame (self (state_after st c)) (self st).
Proof.
  destruct c;
    first [ apply train_loop_frame
          | simpl;
            auto using put_on_device_frame, train_frame, eval_frame, load_frame,
                       set_model_frame, same_frame_refl ].
Qed.

Lemma lifetime_frame (calls : list WCall) (st : WState) :
  same_frame (self (lifetime calls st)) (self st).
Proof.
  unfold lifetime. revert st.
  induction calls as [|c calls IH]; intros st; simpl.
  - apply same_frame_refl.
  - eapply same_frame_trans; [apply IH|apply state_after_frame].
Qed.

(** C4. The parallelization flag is fixed by the device count at
    construction: it is set exactly when more than one device is
    available, and whatever is done to the wrapper afterwards (any
    sequence of calls, returning or raising) leaves it as [__init__] set
    it. *)
Theorem parallelized_decided_once
    (device_count : nat) (model_arguments : model_args.ModelArgs)
    (logger : option Logger) (fs : gmap string (@Checkpoint Tensor))
    (calls : list WCall) :
  let fresh : Wrapper := __init__ device_count model_arguments logger in
  (_parallelized fresh = true <-> 1 < device_count) /\
  _parallelized (self (lifetime calls {| self := fresh; files := fs |}))
  = _parallelized fresh.
Proof.
  intros fresh. split.
  - unfold fresh; simpl. destruct (Nat.ltb_spec 1 device_count); split;
      intros; try lia; try discriminate; reflexivity.
  - apply (lifetime_frame calls {| self := fresh; files := fs |}).
Qed.

(** C8. [get_task()] is the task the model arguments gave at
    construction, and stays so whatever is done to the wrapper: [train],
    [eval], [save], [load], [get_predictions], the training loop and
    every other call. *)
Theorem get_task_is_configured_task
    (device_count : nat) (model_arguments : model_args.ModelArgs)
    (logger : option Logger) (fs : gmap string (@Checkpoint Tensor))
    (calls : list WCall) :
  let fresh : Wrapper := __init__ device_count model_arguments logger in
  get_task fresh = model_args.get_task model_arguments /\
  get_task (self (lifetime calls {| self := fresh; files := fs |}))
  = model_args.get_task model_arguments.
Proof.
  intros fresh. split; [reflexivity|]. unfold get_task.
  destruct (lifetime_frame calls {| self := fresh; files := fs |})
    as (_ & Htask & _).
  exact Htask.
Qed.

(** *** Wrappers that own a network *)

(** A variant's constructor leaves a wrapper that owns the network it
    attached, with the parameters it had, on one device or many; it
    raises only for a network without parameters. *)
Lemma construct_owned_network dc margs (logger : option Logger) (net : @Net Tensor) :
  net_parameters net <> [] ->
  exists w net',
    construct dc margs logger net = (Returns tt, w) /\
    owned_network w = Some net' /\
    net_parameters net' = net_parameters net /\
    (_parallelized w = true <-> 1 < dc).
Proof.
  intros Hne. unfold construct, _put_on_device, __init__. simpl.
  destruct (net_parameters net) as [|p ps] eqn:Hps; [contradiction|].
  destruct (Nat.ltb_spec 1 dc) as [H1|H1];
    destruct (Nat.ltb_spec 0 dc) as [H0|H0]; simpl; rewrite ?Hps; simpl;
    eexists _, _; (split; [reflexivity|]); (split; [reflexivity|]);
    (split; [simpl; auto|]); split; intros; try lia; try discriminate; reflexivity.
Qed.

Lemma owned_network_model (w : Wrapper) net :
  owned_network w = Some net ->
  (_parallelized w = true /\ _model w = DataParallel (Network net)) \/
  (_parallelized w = false /\ _model w = Network net).
Proof.
  unfold owned_network.
  destruct (_parallelized w), (_model w) as [|n|[|n|m]];
    intros H; inversion H; subst; auto.
Qed.

(** The container registers the same tensors as the module inside it. *)
Lemma container_parameters (m : @Model Tensor) :
  map snd (registered_parameters (DataParallel m)) = map snd (registered_parameters m).
Proof. simpl. rewrite map_map. reflexivity. Qed.

Lemma named_parameters_owned (w : Wrapper) (net : Net) :
  owned_network w = Some net -> named_parameters w = Returns (net_parameters net).
Proof.
  intros H. unfold named_parameters.
  destruct (owned_network_model w net H) as [[-> ->]|[-> ->]]; reflexivity.
Qed.

Lemma parameters_owned (w : Wrapper) (net : Net) :
  owned_network w = Some net -> parameters w = Returns (map snd (net_parameters net)).
Proof.
  intros H. unfold parameters.
  destruct (owned_network_model w net H) as [[_ ->]|[_ ->]]; [|reflexivity].
  unfold nn_parameters. now rewrite container_parameters.
Qed.

(** C5. [named_parameters()] and [parameters()] of a wrapper that owns a
    network are the parameters of that network, under the names the
    network gave them: the same whether the network sits in the
    data-parallel container or not. *)
Theorem parameters_of_owned_network (w : Wrapper) (net : Net) :
  owned_network w = Some net ->
  named_parameters w = Returns (net_parameters net) /\
  parameters w = Returns (map snd (net_parameters net)).
Proof.
  intros H. split; [apply named_parameters_owned|apply parameters_owned]; exact H.
Qed.

(** C7. [get_predictions(args)] of a wrapper that owns a network is what
    the network's own [get_predictions] returns, unchanged; when the
    wrapper is parallelized the call does not go to the container, which
    has no such entry point. *)
Theorem get_predictions_of_owned_network
    (w : Wrapper) (net : Net) (args : PredictionArgs) :
  owned_network w = Some net ->
  get_predictions net_get_predictions w args
  = Returns (net_get_predictions net args) /\
  (_parallelized w = true ->
   module_get_predictions net_get_predictions (_model w) args
   = Raises (AttributeError "get_predictions")).
Proof.
  intros H. unfold get_predictions.
  destruct (owned_network_model w net H) as [[-> ->]|[-> ->]]; simpl.
  - split; reflexivity.
  - split; [reflexivity|discriminate].
Qed.

(** C3. [save(filename)] on a wrapper that owns a network writes the
    network's parameters under their own names, parallelized or not, and
    [load(filename)] on a wrapper that owns a network, parallelized or
    not, then leaves it owning a network with exactly the saved
    parameters. *)
Theorem save_then_load_restores
    (w1 w2 : Wrapper) (net1 net2 : Net) (filename : string)
    (fs : gmap string (@Checkpoint Tensor)) :
  owned_network w1 = Some net1 ->
  owned_network w2 = Some net2 ->
  let saved := save w1 filename fs in
  let loaded := load w2 filename (snd saved) in
  fst saved = Returns tt /\
  snd saved = <[filename := net_parameters net1]> fs /\
  fst loaded = Returns tt /\
  owned_network (snd loaded)
  = Some {| net_parameters := net_parameters net1;
            net_training := net_training net2;
            net_is_cuda := net_is_cuda net2 |} /\
  named_parameters (snd loaded) = Returns (net_parameters net1) /\
  parameters (snd loaded) = Returns (map snd (net_parameters net1)).
Proof.
  intros H1 H2 saved loaded.
  assert (Hsaved : saved = (Returns tt, <[filename := net_parameters net1]> fs)).
  { unfold saved, save.
    destruct (owned_network_model w1 net1 H1) as [[-> ->]|[-> ->]]; reflexivity. }
  assert (Hloaded : fst loaded = Returns tt /\
            owned_network (snd loaded)
            = Some {| net_parameters := net_parameters net1;
                      net_training := net_training net2;
                      net_is_cuda := net_is_cuda net2 |}).
  { unfold loaded, load. rewrite Hsaved. simpl.
    unfold owned_network.
    destruct (owned_network_model w2 net2 H2) as [[Hp ->]|[Hp ->]];
      rewrite Hp; simpl; unfold net_load; rewrite lookup_insert_eq; simpl;
      rewrite Hp; split; reflexivity. }
  destruct Hloaded as [Hout Hown].
  rewrite Hsaved. simpl.
  repeat split; auto.
  - apply (named_parameters_owned _ _ Hown).
  - apply (parameters_owned _ _ Hown).
Qed.

(** *** Before and while a network is attached *)

(** X1. A wrapper fresh from [__init__] has no module yet: every method
    that needs one raises, [AttributeError] for the accessors and the
    checkpoint methods, and leaves the wrapper and the files as they
    were. *)
Theorem fresh_wrapper_has_no_model
    (device_count : nat) (model_arguments : model_args.ModelArgs)
    (logger : option Logger) (filename : string)
    (fs : gmap string (@Checkpoint Tensor)) (args : PredictionArgs) :
  let fresh : Wrapper := __init__ device_count model_arguments logger in
  (exists a, named_parameters fresh = Raises (AttributeError a)) /\
  parameters fresh = Raises (AttributeError "parameters") /\
  train fresh = (Raises (AttributeError "train"), fresh) /\
  eval fresh = (Raises (AttributeError "eval"), fresh) /\
  (exists a, load fresh filename fs = (Raises (AttributeError a), fresh)) /\
  (exists a, save fresh filename fs = (Raises (AttributeError a), fs)) /\
  (exists a, get_predictions net_get_predictions fresh args
             = Raises (AttributeError a)) /\
  (exists e, fst (_put_on_device device_count fresh) = Raises e).
Proof.
  intros fresh. unfold fresh, named_parameters, load, save, get_predictions,
    _put_on_device, __init__. simpl.
  destruct (1 <? device_count)%nat, (0 <? device_count)%nat; simpl;
    repeat split; eauto.
Qed.

(** X2. [_put_on_device] on a wrapper whose module is a network with at
    least one parameter returns, and the wrapper then owns that network,
    inside one container exactly when it is parallelized, moved to the
    device when there is one, with its parameters and mode untouched. *)
Theorem put_on_device_owns (device_count : nat) (w : Wrapper) (net : Net) :
  _model w = Network net ->
  net_parameters net <> [] ->
  fst (_put_on_device device_count w) = Returns tt /\
  owned_network (snd (_put_on_device device_count w))
  = Some (placed device_count net) /\
  _model (snd (_put_on_device device_count w))
  = (if _parallelized w then DataParallel (Network (placed device_count net))
     else Network (placed device_count net)).
Proof.
  intros Hm Hne. unfold _put_on_device, owned_network, placed.
  destruct (net_parameters net) as [|p ps] eqn:Hps; [contradiction|].
  destruct (_parallelized w) eqn:Hp, (0 <? device_count)%nat; simpl;
    rewrite ?Hm; simpl; rewrite ?Hps; simpl; rewrite ?Hp, ?Hps;
    destruct net as [ps' tr cu]; simpl in *; subst ps'; repeat split.
Qed.

(** X3. On a network without parameters [_put_on_device] raises
    [StopIteration], and only after it has already put the network into
    the container and on the device. *)
Theorem put_on_device_without_parameters (device_count : nat) (w : Wrapper) (net : Net) :
  _model w = Network net ->
  net_parameters net = [] ->
  fst (_put_on_device device_count w) = Raises StopIteration /\
  _model (snd (_put_on_device device_count w))
  = (if _parallelized w then DataParallel (Network (placed device_count net))
     else Network (placed device_count net)).
Proof.
  intros Hm Hps. unfold _put_on_device, placed.
  destruct (_parallelized w) eqn:Hp, (0 <? device_count)%nat; simpl;
    rewrite ?Hm; simpl; rewrite ?Hps; simpl;
    destruct net as [ps' tr cu]; simpl in *; subst ps'; repeat split.
Qed.

(** X4. [_put_on_device] is not to be called twice on a parallelized
    wrapper: the second call returns, but wraps the container again, and
    from then on [save], [load] and [get_predictions] raise
    [AttributeError] and [named_parameters] yields the names with the
    container's prefix; [parameters] still yields the same tensors. *)
Theorem second_put_on_device_wraps_again
    (device_count : nat) (w : Wrapper) (net : Net) (filename : string)
    (fs : gmap string (@Checkpoint Tensor)) (args : PredictionArgs) :
  owned_network w = Some net ->
  _parallelized w = true ->
  net_parameters net <> [] ->
  let w' := snd (_put_on_device device_count w) in
  fst (_put_on_device device_count w) = Returns tt /\
  owned_network w' = None /\
  save w' filename fs = (Raises (AttributeError "save"), fs) /\
  load w' filename fs = (Raises (AttributeError "load"), w') /\
  get_predictions net_get_predictions w' args
  = Raises (AttributeError "get_predictions") /\
  named_parameters w'
  = Returns (map (fun p => ("module." +:+ fst p, snd p)) (net_parameters net)) /\
  parameters w' = Returns (map snd (net_parameters net)).
Proof.
  intros Hown Hp Hne w'.
  destruct (owned_network_model w net Hown) as [[_ Hm]|[Hp' _]];
    [|congruence].
  assert (Hw' : _put_on_device device_count w
                = (Returns tt,
                   set_model w (DataParallel (DataParallel
                                  (Network (placed device_count net)))))).
  { unfold _put_on_device, placed. rewrite Hp, Hm.
    destruct (net_parameters net) as [|p ps] eqn:Hps; [contradiction|].
    destruct (0 <? device_count)%nat; simpl; rewrite ?Hps; simpl;
      destruct net as [ps' tr cu]; simpl in *; subst ps'; reflexivity. }
  unfold w'. rewrite Hw'. simpl.
  unfold owned_network, save, load, get_predictions, named_parameters, parameters.
  simpl. rewrite Hp. simpl. repeat split.
  f_equal. rewrite !map_map. reflexivity.
Qed.

(** *** Modes, parameters and the wrapper's shape over time *)

Lemma train_owned (w : Wrapper) (net : Net) :
  owned_network w = Some net ->
  fst (train w) = Returns (_model (snd (train w))) /\
  owned_network (snd (train w)) = Some (in_mode true net).
Proof.
  intros H. unfold train, owned_network.
  destruct (owned_network_model w net H) as [[Hp ->]|[Hp ->]]; simpl;
    rewrite Hp; split; reflexivity.
Qed.

Lemma eval_owned (w : Wrapper) (net : Net) :
  owned_network w = Some net ->
  fst (eval w) = Returns (_model (snd (eval w))) /\
  owned_network (snd (eval w)) = Some (in_mode false net).
Proof.
  intros H. unfold eval, owned_network.
  destruct (owned_network_model w net H) as [[Hp ->]|[Hp ->]]; simpl;
    rewrite Hp; split; reflexivity.
Qed.

Lemma load_owned (w : Wrapper) (net : Net) filename
    (fs : gmap string (@Checkpoint Tensor)) :
  owned_network w = Some net ->
  exists net', owned_network (snd (load w filename fs)) = Some net' /\
               net_training net' = net_training net /\
               net_is_cuda net' = net_is_cuda net /\
               (net_parameters net' = net_parameters net \/
                fs !! filename = Some (net_parameters net')).
Proof.
  intros H. unfold load.
  destruct (owned_network_model w net H) as [[Hp Hm]|[Hp Hm]];
    rewrite Hp, Hm; simpl; unfold net_load;
    destruct (fs !! filename) as [checkpoint|]; simpl;
    unfold owned_network; simpl; rewrite ?Hp, ?Hm;
    eexists; (split; [reflexivity|]); simpl; auto.
Qed.

(** X5. [train()] and [eval()] on a wrapper that owns a network switch
    that network to training and to inference mode and touch nothing
    else; they return the module the wrapper holds, which is the
    container when the wrapper is parallelized; and of two toggles in a
    row the last one decides. *)
Theorem train_and_eval_set_the_mode (w : Wrapper) (net : Net) :
  owned_network w = Some net ->
  (fst (train w) = Returns (_model (snd (train w))) /\
   owned_network (snd (train w)) = Some (in_mode true net)) /\
  (fst (eval w) = Returns (_model (snd (eval w))) /\
   owned_network (snd (eval w)) = Some (in_mode false net)) /\
  snd (eval (snd (train w))) = snd (eval w) /\
  snd (train (snd (eval w))) = snd (train w) /\
  (_parallelized w = true ->
   fst (train w) = Returns (DataParallel (Network (in_mode true net)))).
Proof.
  intros H. split; [exact (train_owned w net H)|].
  split; [exact (eval_owned w net H)|].
  unfold train, eval.
  destruct (owned_network_model w net H) as [[Hp ->]|[Hp ->]]; simpl;
    repeat split; congruence.
Qed.

Lemma state_after_keeps_parameters (st : WState) (c : WCall) (net : Net) :
  owned_network (self st) = Some net ->
  keeps_parameters c = true ->
  exists mode, owned_network (self (state_after st c)) = Some (in_mode mode net).
Proof.
  intros H Hc.
  assert (Hsame : owned_network (self st) = Some (in_mode (net_training net) net))
    by (destruct net; exact H).
  destruct c; try discriminate Hc; simpl; eauto.
  - exists true. apply train_owned, H.
  - exists false. apply eval_owned, H.
Qed.

(** X6. As long as only the accessors, [train], [eval], [save] and
    [get_predictions] are called, a wrapper that owns a network keeps
    owning it with the same parameters on the same device: at most its
    mode has changed. *)
Theorem parameters_change_only_by_load
    (calls : list WCall) (st : WState) (net : Net) :
  owned_network (self st) = Some net ->
  forallb keeps_parameters calls = true ->
  exists mode,
    owned_network (self (lifetime calls st)) = Some (in_mode mode net).
Proof.
  unfold lifetime. revert st net.
  induction calls as [|c calls IH]; intros st net H Hcalls; simpl in *.
  - exists (net_training net). destruct net; exact H.
  - apply andb_prop in Hcalls as [Hc Hcalls].
    destruct (state_after_keeps_parameters st c net H Hc) as [mode Hmode].
    destruct (IH _ _ Hmode Hcalls) as [mode' Hmode'].
    exists mode'. exact Hmode'.
Qed.

Lemma state_after_uses_model (st : WState) (c : WCall) (net : Net) :
  owned_network (self st) = Some net ->
  uses_model c = true ->
  exists net', owned_network (self (state_after st c)) = Some net' /\
               net_is_cuda net' = net_is_cuda net.
Proof.
  intros H Hc. destruct c; try discriminate Hc; simpl; eauto.
  - eexists; split; [apply train_owned, H|reflexivity].
  - eexists; split; [apply eval_owned, H|reflexivity].
  - destruct (load_owned (self st) net filename (files st) H)
      as (net' & Hown & _ & Hcuda & _). eauto.
Qed.

(** X7. Whatever is called on a wrapper that owns a network, short of
    attaching a network or calling [_put_on_device] again, returning or
    raising, the wrapper still owns a network afterwards, on the same
    device: the container is there exactly when the wrapper is
    parallelized. *)
Theorem wrapper_keeps_its_shape (calls : list WCall) (st : WState) (net : Net) :
  owned_network (self st) = Some net ->
  forallb uses_model calls = true ->
  exists net',
    owned_network (self (lifetime calls st)) = Some net' /\
    net_is_cuda net' = net_is_cuda net.
Proof.
  unfold lifetime. revert st net.
  induction calls as [|c calls IH]; intros st net H Hcalls; simpl in *.
  - eauto.
  - apply andb_prop in Hcalls as [Hc Hcalls].
    destruct (state_after_uses_model st c net H Hc) as (net1 & H1 & Hcuda1).
    destruct (IH _ _ H1 Hcalls) as (net2 & H2 & Hcuda2).
    exists net2. split; [exact H2|congruence].
Qed.

(** X8. [get_arguments()] is the arguments object given to [__init__],
    whatever has been done to the wrapper since, and [get_task()] is
    always the task of those arguments. *)
Theorem get_arguments_is_configured_arguments
    (device_count : nat) (model_arguments : model_args.ModelArgs)
    (logger : option Logger) (fs : gmap string (@Checkpoint Tensor))
    (calls : list WCall) :
  let fresh : Wrapper := __init__ device_count model_arguments logger in
  let later := self (lifetime calls {| self := fresh; files := fs |}) in
  get_arguments later = model_arguments /\
  get_task later = model_args.get_task (get_arguments later).
Proof.
  intros fresh later. unfold get_arguments, get_task.
  destruct (lifetime_frame calls {| self := fresh; files := fs |})
    as (Hargs & Htask & _).
  fold later in Hargs, Htask. rewrite Hargs, Htask. split; reflexivity.
Qed.

End WrapperProperties.

(** ** The training driver *)

Section DriverProperties.

Import training.

Context {Object DataArgs GameArgs EvaluationArgs : Type}.
Variable W : @World Object DataArgs GameArgs EvaluationArgs.
Variable args : @ProgramArgs DataArgs GameArgs EvaluationArgs.

Abbreviation Trace := (list (@Event Object)).
Abbreviation Piece := (@Run Object).

(** *** Sequencing *)

Lemma run_returns {A B} (trace : Trace) (a : A) (k : A -> Piece B) :
  mbind (M := Piece) k (trace, Returns a) = (trace ++ fst (k a), snd (k a)).
Proof. reflexivity. Qed.

Lemma run_raises {A B} (trace : Trace) (e : Exn) (k : A -> Piece B) :
  mbind (M := Piece) k (trace, Raises e) = (trace, Raises e).
Proof. reflexivity. Qed.

Lemma run_assoc {A B C} (m : Piece A) (f : A -> Piece B) (g : B -> Piece C) :
  mbind (M := Piece) g (mbind (M := Piece) f m)
  = mbind (M := Piece) (fun a => mbind (M := Piece) g (f a)) m.
Proof.
  destruct m as [trace [a|e]]; [|reflexivity].
  rewrite !run_returns. destruct (f a) as [trace' [b|e]]; simpl.
  - now rewrite app_assoc.
  - reflexivity.
Qed.

Lemma elem_of_bind_first {A B} (e : @Event Object) (m : Piece A) (k : A -> Piece B) :
  e ∈ fst m -> e ∈ fst (mbind (M := Piece) k m).
Proof.
  destruct m as [trace [a|x]]; simpl; [|auto].
  intros H. apply elem_of_app; left; exact H.
Qed.

Lemma elem_of_bind_next {A B} (e : @Event Object) trace (a : A) (k : A -> Piece B) :
  e ∈ fst (k a) -> e ∈ fst (mbind (M := Piece) k (trace, Returns a)).
Proof. intros H. rewrite run_returns. apply elem_of_app; right; exact H. Qed.

(** *** Properties of every event of a block *)

Lemma trace_bind {A B} (P : @Event Object -> Prop) (m : Piece A) (k : A -> Piece B) :
  Forall P (fst m) -> (forall a, Forall P (fst (k a))) ->
  Forall P (fst (mbind (M := Piece) k m)).
Proof.
  intros Hm Hk. destruct m as [trace [a|e]]; simpl in *; [|exact Hm].
  apply Forall_app; split; [exact Hm|apply Hk].
Qed.

Lemma trace_if {A} (P : @Event Object -> Prop) (b : bool) (x y : Piece A) :
  Forall P (fst x) -> Forall P (fst y) -> Forall P (fst (if b then x else y)).
Proof. destruct b; auto. Qed.

Lemma trace_one {A} (P : @Event Object -> Prop) e (o : Outcome A) :
  P e -> Forall P (fst ([e], o)).
Proof. intros H. constructor; [exact H|constructor]. Qed.

Lemma trace_none {A} (P : @Event Object -> Prop) (o : Outcome A) :
  Forall P (fst (([] : Trace), o)).
Proof. constructor. Qed.

(** Walks through a block; [tac] shows the property of one event. *)
Ltac trace_block tac :=
  repeat first
    [ apply trace_bind; [|intros ?]
    | apply trace_if
    | apply trace_none
    | apply trace_one; tac ].

Ltac in_stage := first [left; reflexivity | right; reflexivity].

(** An event that is different from every event of an explicit trace is
    not in it; an event is in a trace that lists it. *)
Ltac not_in_trace H :=
  repeat (apply elem_of_cons in H as [H|H]; [discriminate H|]);
  try (apply elem_of_nil in H; contradiction).

(** An event of a later stage is not in the trace [Hearly] speaks of,
    so it is in the rest. *)
Ltac early Hearly H :=
  apply elem_of_app in H as [H|H];
  [exfalso; revert H; apply Hearly; simpl; auto|].

Ltac in_trace :=
  repeat first [apply list_elem_of_here | apply list_elem_of_further].

(** *** Each block stays within its stage *)

Lemma load_dataset_within : within Setup (fst (load_dataset W args)).
Proof. unfold load_dataset. trace_block in_stage. Qed.

Lemma resolve_vocabulary_within dataset :
  within Vocabulary (fst (resolve_vocabulary W args dataset)).
Proof. unfold resolve_vocabulary. trace_block in_stage. Qed.

Lemma fit_within experiment dataset vocabulary :
  within Fitting (fst (fit W args experiment dataset vocabulary)).
Proof. unfold fit. trace_block in_stage. Qed.

Lemma report_cons metric_name result rest :
  report W args ((metric_name, result) :: rest)
  = (_ ← (if training_args.log_with_slack (training_arguments args)
          then message ← after_training W metric_name result; slack W args message
          else mret tt);
     message ← after_training W metric_name result;
     _ ← logging_info message;
     report W args rest).
Proof. reflexivity. Qed.

(** The loop over the metrics logs, and notifies only when Slack logging
    is enabled. *)
Lemma report_events (P : @Event Object -> Prop) items :
  (forall message, P (E_logging_info message)) ->
  (training_args.log_with_slack (training_arguments args) = true ->
   forall message,
     P (E_send_slack_message (experiment_name args) message SLACK_CHANNEL)) ->
  Forall P (fst (report W args items)).
Proof.
  intros Hlog Hslack.
  induction items as [|[metric_name result] rest IH]; [constructor|].
  rewrite report_cons.
  apply trace_bind; [|intros _].
  - destruct (training_args.log_with_slack (training_arguments args));
      [|apply trace_none].
    unfold after_training, compute. trace_block ltac:(auto).
  - unfold after_training, compute. trace_block ltac:(auto). exact IH.
Qed.

Lemma report_within items : within Evaluation (fst (report W args items)).
Proof. apply report_events; intros; left; reflexivity. Qed.

Lemma evaluate_within names locals model :
  within Evaluation (fst (evaluate W args names locals model)).
Proof.
  unfold evaluate, read_global, compute. trace_block in_stage.
  apply report_within.
Qed.

(** Line 100 cannot be passed: the module does not bind [model_args]. *)
Lemma evaluate_raises locals model :
  evaluate W args module_names locals model = ([], Raises (NameError "model_args")).
Proof. reflexivity. Qed.

(** *** After the data is loaded *)

(** Once the first block has returned, the run continues with the
    vocabulary, the model and the evaluation. *)
Lemma train_after_dataset trace0 locals :
  load_dataset W args = (trace0, Returns locals) ->
  let rest : Piece unit :=
    vocabulary ← resolve_vocabulary W args (dataset locals);
    '(model, _) ← fit W args (experiment locals) (dataset locals) vocabulary;
    evaluate W args module_names locals model in
  train W args = (trace0 ++ fst rest, snd rest).
Proof.
  intros H rest. unfold rest, train, train_model. rewrite H.
  rewrite run_returns. cbn [fst snd].
  destruct (resolve_vocabulary W args (dataset locals)) as [trace1 [vocabulary|e]];
    rewrite ?run_returns, ?run_raises; cbn [fst snd]; [|reflexivity].
  destruct (fit W args (experiment locals) (dataset locals) vocabulary)
    as [trace2 [[model best]|e]];
    rewrite ?run_returns, ?run_raises; cbn [fst snd];
    rewrite ?run_returns, ?run_raises; cbn [fst snd]; [|reflexivity].
  now rewrite app_nil_r, !app_assoc.
Qed.

(** What follows the vocabulary: the model is built from the vocabulary
    the second block produced, and nothing touches a vocabulary file. *)
Lemma after_vocabulary_events locals vocabulary :
  let rest : Piece unit :=
    '(model, _) ← fit W args (experiment locals) (dataset locals) vocabulary;
    evaluate W args module_names locals model in
  Forall (fun e => stage e <> Vocabulary) (fst rest) /\
  (forall v lp, E_get_model_wrapper v lp ∈ fst rest <->
                v = vocabulary /\ lp = model_args.end_to_end (decoder_args args)).
Proof.
  intros rest. split; [|intros v lp; split].
  - unfold rest. apply trace_bind; [|intros [model best]].
    + eapply Forall_impl; [apply fit_within|].
      intros e [H|H]; rewrite H; discriminate.
    + eapply Forall_impl; [apply evaluate_within|].
      intros e [H|H]; rewrite H; discriminate.
  - assert (Hall : Forall (fun e => match e with
                                    | E_get_model_wrapper v' lp' =>
                                        v' = vocabulary /\
                                        lp' = model_args.end_to_end (decoder_args args)
                                    | _ => True
                                    end) (fst rest)).
    { unfold rest. apply trace_bind; [|intros [model best]].
      - unfold fit. trace_block ltac:(simpl; auto).
      - eapply Forall_impl; [apply evaluate_within|].
        intros [] [H|H]; simpl in H; try discriminate; exact I. }
    rewrite Forall_forall in Hall. intros Hin. exact (Hall _ Hin).
  - intros [-> ->]. unfold rest, fit.
    apply elem_of_bind_first, elem_of_bind_next, elem_of_bind_first.
    apply list_elem_of_here.
Qed.

(** The vocabulary block in the trace of a run, with the directory as
    line 72 computes it. *)
Lemma vocabulary_resolution_as_computed trace0 locals :
  load_dataset W args = (trace0, Returns locals) ->
  exists trace1 outcome,
    train W args = (trace0 ++ trace1, outcome) /\
    let trace := trace0 ++ trace1 in
    let directory :=
      vocab_file (model_args.pretrained_plan_predictor_filepath (decoder_args args)) in
    let load_pretrained := model_args.end_to_end (decoder_args args) in
    if model_args.pretrained_plan_predictor (decoder_args args) then
      (forall d, E_load_vocabulary d ∈ trace <-> d = directory) /\
      (forall ds d, E_save_vocabulary ds d ∉ trace) /\
      (forall v lp, E_get_model_wrapper v lp ∈ trace <->
                    load_vocabulary W directory = Returns v /\ lp = load_pretrained)
    else
      (forall d, E_load_vocabulary d ∉ trace) /\
      (forall ds d, E_save_vocabulary ds d ∈ trace <->
                    ds = dataset locals /\ d = save_directory args) /\
      (forall v lp, E_get_model_wrapper v lp ∈ trace <->
                    save_vocabulary W (dataset locals) (save_directory args)
                    = Returns tt /\
                    v = get_instruction_vocabulary W (dataset locals) /\
                    lp = load_pretrained).
Proof.
  intros H. eexists _, _. split; [apply (train_after_dataset _ _ H)|].
  pose proof load_dataset_within as Hsetup.
  rewrite H in Hsetup. simpl in Hsetup. unfold within in Hsetup.
  rewrite Forall_forall in Hsetup.
  assert (Hearly : forall e, stage e = Vocabulary \/ stage e = Fitting -> e ∉ trace0).
  { intros e He Hin. destruct (Hsetup _ Hin) as [Hs|Hs], He as [He|He];
      rewrite He in Hs; discriminate. }
  unfold resolve_vocabulary, logging_info, call. cbv zeta.
  destruct (model_args.pretrained_plan_predictor (decoder_args args)).
  - set (directory := vocab_file _).
    rewrite run_returns. cbn [fst snd].
    destruct (load_vocabulary W directory) as [vocabulary|e] eqn:Hload;
      rewrite ?run_returns, ?run_raises; cbn [fst snd app].
    + destruct (after_vocabulary_events locals vocabulary) as [Hlater Hmodel].
      cbv zeta in Hlater, Hmodel. rewrite Forall_forall in Hlater.
      split; [|split].
      * intros d; split.
        -- intros Hin. early Hearly Hin.
           apply elem_of_cons in Hin as [Hin|Hin]; [discriminate|].
           apply elem_of_cons in Hin as [Hin|Hin]; [congruence|].
           now apply Hlater in Hin.
        -- intros ->. apply elem_of_app; right. in_trace.
      * intros ds d Hin. early Hearly Hin.
        do 2 (apply elem_of_cons in Hin as [Hin|Hin]; [discriminate|]).
        now apply Hlater in Hin.
      * intros v lp; split.
        -- intros Hin. early Hearly Hin.
           do 2 (apply elem_of_cons in Hin as [Hin|Hin]; [discriminate|]).
           apply Hmodel in Hin as [-> ->]. split; reflexivity.
        -- intros [Hv ->]. inversion Hv; subst v.
           apply elem_of_app; right. do 2 apply list_elem_of_further.
           now apply Hmodel.
    + split; [|split].
      * intros d; split.
        -- intros Hin. early Hearly Hin.
           apply elem_of_cons in Hin as [Hin|Hin]; [discriminate|].
           apply elem_of_cons in Hin as [Hin|Hin]; [congruence|].
           not_in_trace Hin.
        -- intros ->. apply elem_of_app; right. in_trace.
      * intros ds d Hin. early Hearly Hin. not_in_trace Hin.
      * intros v lp; split.
        -- intros Hin. early Hearly Hin. not_in_trace Hin.
        -- intros [Hv _]. discriminate.
  - destruct (save_vocabulary W (dataset locals) (save_directory args))
      as [[]|e] eqn:Hsave;
      rewrite ?run_returns, ?run_raises; cbn [fst snd app].
    + destruct (after_vocabulary_events locals
                  (get_instruction_vocabulary W (dataset locals)))
        as [Hlater Hmodel].
      cbv zeta in Hlater, Hmodel. rewrite Forall_forall in Hlater.
      split; [|split].
      * intros d Hin. early Hearly Hin.
        apply elem_of_cons in Hin as [Hin|Hin]; [discriminate|].
        now apply Hlater in Hin.
      * intros ds d; split.
        -- intros Hin. early Hearly Hin.
           apply elem_of_cons in Hin as [Hin|Hin];
             [inversion Hin; split; reflexivity|].
           now apply Hlater in Hin.
        -- intros [-> ->]. apply elem_of_app; right. in_trace.
      * intros v lp; split.
        -- intros Hin. early Hearly Hin.
           apply elem_of_cons in Hin as [Hin|Hin]; [discriminate|].
           apply Hmodel in Hin as [-> ->]. repeat split.
        -- intros (_ & -> & ->).
           apply elem_of_app; right. apply list_elem_of_further.
           now apply Hmodel.
    + split; [|split].
      * intros d Hin. early Hearly Hin. not_in_trace Hin.
      * intros ds d; split.
        -- intros Hin. early Hearly Hin.
           apply elem_of_cons in Hin as [Hin|Hin];
             [inversion Hin; split; reflexivity|].
           not_in_trace Hin.
        -- intros [-> ->]. apply elem_of_app; right. in_trace.
      * intros v lp; split.
        -- intros Hin. early Hearly Hin. not_in_trace Hin.
        -- intros [Hv _]. discriminate.
Qed.

(** C1. Once the data is loaded, the vocabulary is resolved on the
    pretrained-plan-predictor flag alone. With the flag set, the only
    vocabulary loaded is the one in the parent directory of the
    pretrained filepath (what stands before its last ['/']), no
    vocabulary is saved, and the model is built exactly from the
    vocabulary loaded from there. Without it, no vocabulary is loaded,
    the dataset's vocabulary is saved to the save directory and nothing
    else is, and the model is built exactly from the dataset's derived
    vocabulary. *)
Theorem vocabulary_resolution trace0 locals :
  load_dataset W args = (trace0, Returns locals) ->
  exists trace1 outcome,
    train W args = (trace0 ++ trace1, outcome) /\
    let trace := trace0 ++ trace1 in
    let filepath := model_args.pretrained_plan_predictor_filepath (decoder_args args) in
    let load_pretrained := model_args.end_to_end (decoder_args args) in
    if model_args.pretrained_plan_predictor (decoder_args args) then
      (exists directory, parent_directory filepath directory) /\
      (forall directory,
          parent_directory filepath directory ->
          (forall d, E_load_vocabulary d ∈ trace <-> d = directory) /\
          (forall v lp, E_get_model_wrapper v lp ∈ trace <->
                        load_vocabulary W directory = Returns v /\
                        lp = load_pretrained)) /\
      (forall ds d, E_save_vocabulary ds d ∉ trace)
    else
      (forall d, E_load_vocabulary d ∉ trace) /\
      (forall ds d, E_save_vocabulary ds d ∈ trace <->
                    ds = dataset locals /\ d = save_directory args) /\
      (forall v lp, E_get_model_wrapper v lp ∈ trace <->
                    save_vocabulary W (dataset locals) (save_directory args)
                    = Returns tt /\
                    v = get_instruction_vocabulary W (dataset locals) /\
                    lp = load_pretrained).
Proof.
  intros H.
  destruct (vocabulary_resolution_as_computed trace0 locals H)
    as (trace1 & outcome & Heq & Hrest).
  exists trace1, outcome. split; [exact Heq|].
  cbv zeta in *.
  destruct (model_args.pretrained_plan_predictor (decoder_args args));
    [|exact Hrest].
  destruct Hrest as (Hload & Hsave & Hmodel).
  split; [eexists; apply vocab_file_parent|].
  split; [|exact Hsave].
  intros directory Hparent.
  rewrite (parent_directory_unique _ _ Hparent).
  split; [exact Hload|exact Hmodel].
Qed.

(** *** After training *)

(** Once the first three blocks have returned, the run continues with
    the evaluation block. *)
Lemma train_after_training trace0 locals model :
  train_model W args = (trace0, Returns (locals, model)) ->
  train W args
  = (trace0 ++ fst (evaluate W args module_names locals model),
     snd (evaluate W args module_names locals model)).
Proof. intros H. unfold train. rewrite H. reflexivity. Qed.

(** And there it ends, at the comparison of line 100. *)
Lemma train_stops_at_line_100 trace0 locals model :
  train_model W args = (trace0, Returns (locals, model)) ->
  train W args = (trace0, Raises (NameError "model_args")).
Proof.
  intros H. rewrite (train_after_training _ _ _ H), evaluate_raises.
  simpl. now rewrite app_nil_r.
Qed.

Lemma train_model_before_evaluation :
  Forall (fun e => stage e <> Evaluation) (fst (train_model W args)).
Proof.
  unfold train_model.
  apply trace_bind; [|intros locals; apply trace_bind; [|intros vocabulary;
    apply trace_bind; [|intros [model best]; apply trace_none]]].
  - eapply Forall_impl; [apply load_dataset_within|].
    intros e [H|H]; rewrite H; discriminate.
  - eapply Forall_impl; [apply resolve_vocabulary_within|].
    intros e [H|H]; rewrite H; discriminate.
  - eapply Forall_impl; [apply fit_within|].
    intros e [H|H]; rewrite H; discriminate.
Qed.

(** No run gets to an evaluation call. *)
Lemma train_before_evaluation :
  Forall (fun e => stage e <> Evaluation) (fst (train W args)).
Proof.
  unfold train. apply trace_bind; [apply train_model_before_evaluation|].
  intros [locals model]. rewrite evaluate_raises. constructor.
Qed.

(** C2. After training has completed, the driver does not branch on the
    task: whatever the task, the comparison of line 100 reads the name
    [model_args], which the module binds only for type checking, and the
    run ends there in [NameError]. Neither [plan_metric_results] nor
    [execution_accuracies] is called in any run. *)
Theorem evaluation_never_starts trace0 locals model :
  train_model W args = (trace0, Returns (locals, model)) ->
  train W args = (trace0, Raises (NameError "model_args")) /\
  (forall m examples, E_plan_metric_results m examples ∉ fst (train W args)) /\
  (forall m examples, E_execution_accuracies m examples ∉ fst (train W args)).
Proof.
  intros H. split; [exact (train_stops_at_line_100 _ _ _ H)|].
  pose proof train_before_evaluation as Hall. rewrite Forall_forall in Hall.
  split; intros m examples Hin; now apply (Hall _ Hin).
Qed.

(** C6. With the task [PLAN_PREDICTOR] and Slack logging enabled, the
    final goal-prediction accuracy is never reported. A run that has
    completed training ends at line 100 in [NameError] for [model_args],
    before any metric is computed, and no run sends a notification that
    begins with the words of line 107. Were [model_args] bound, the run
    would compute and print the metrics and then end at line 108 in
    [NameError] for [final_goal_acc], which nothing binds either. *)
Theorem final_accuracy_is_never_reported :
  task args = PLAN_PREDICTOR ->
  training_args.log_with_slack (training_arguments args) = true ->
  (forall trace0 locals model,
      train_model W args = (trace0, Returns (locals, model)) ->
      train W args = (trace0, Raises (NameError "model_args"))) /\
  (forall username number channel,
      E_send_slack_message username
        ("Final goal-prediction accuracy: " +:+ number) channel
      ∉ fst (train W args)) /\
  (forall locals model predictions,
      plan_metric_results W model (get_examples W (dataset locals) DEV)
      = Returns predictions ->
      evaluate W args ("model_args" :: module_names) locals model
      = ([E_logging_info "Running on dev after training for plan prediction...";
          E_plan_metric_results model (get_examples W (dataset locals) DEV);
          E_print predictions],
         Raises (NameError "final_goal_acc"))).
Proof.
  intros Htask Hslack. split; [exact train_stops_at_line_100|]. split.
  - set (P := fun e : @Event Object =>
                match e with
                | E_send_slack_message _ (String c _) _ => c <> "F"%char
                | _ => True
                end).
    assert (Hall : Forall P (fst (train W args))).
    { unfold train. apply trace_bind;
        [|intros [locals model]; rewrite evaluate_raises; constructor].
      unfold train_model.
      apply trace_bind; [|intros locals; apply trace_bind; [|intros vocabulary;
        apply trace_bind; [|intros [model best]; apply trace_none]]].
      - unfold load_dataset. trace_block ltac:(simpl; auto; discriminate).
      - unfold resolve_vocabulary. trace_block ltac:(exact I).
      - unfold fit. trace_block ltac:(simpl; auto; discriminate). }
    rewrite Forall_forall in Hall.
    intros username number channel Hin. now apply (Hall _ Hin).
  - intros locals model predictions Hmetrics.
    unfold evaluate. rewrite Htask, Hmetrics, Hslack. reflexivity.
Qed.

(** C9. With the task [ACTION_GENERATOR] and a wrapper that is not an
    [ActionGeneratorModelWrapper], a run that has completed training
    does not fail at the assertion of line 113: it ends before it, at
    line 100, in [NameError] for [model_args], without the log line.
    [execution_accuracies] is called in no run. Were [model_args] bound,
    the run would end at the assertion, right after the log line. *)
Theorem wrong_wrapper_never_reaches_assertion trace0 locals model :
  train_model W args = (trace0, Returns (locals, model)) ->
  task args = ACTION_GENERATOR ->
  isinstance_ActionGeneratorModelWrapper W model = false ->
  train W args = (trace0, Raises (NameError "model_args")) /\
  (forall m examples, E_execution_accuracies m examples ∉ fst (train W args)) /\
  evaluate W args ("model_args" :: module_names) locals model
  = ([E_logging_info "Running on dev after training for action prediction..."],
     Raises AssertionError).
Proof.
  intros H Htask Hwrong. split; [exact (train_stops_at_line_100 _ _ _ H)|]. split.
  - pose proof train_before_evaluation as Hall. rewrite Forall_forall in Hall.
    intros m examples Hin. now apply (Hall _ Hin).
  - unfold evaluate. rewrite Htask, Hwrong. reflexivity.
Qed.

(** *** Every run *)

(** A property of every event of the four blocks holds of every event of
    a run. *)
Lemma train_events (P : @Event Object -> Prop) :
  Forall P (fst (load_dataset W args)) ->
  (forall dataset, Forall P (fst (resolve_vocabulary W args dataset))) ->
  (forall experiment dataset vocabulary,
      Forall P (fst (fit W args experiment dataset vocabulary))) ->
  (forall locals model, Forall P (fst (evaluate W args module_names locals model))) ->
  Forall P (fst (train W args)).
Proof.
  intros H1 H2 H3 H4. unfold train, train_model.
  apply trace_bind; [|intros [locals model]; apply H4].
  apply trace_bind; [exact H1|intros locals].
  apply trace_bind; [apply H2|intros vocabulary].
  apply trace_bind; [apply H3|intros [model best]; apply trace_none].
Qed.

(** What a collaborator returned is known to what follows the call. *)
Lemma trace_bind_returned {A B} (P : @Event Object -> Prop)
    (m : Piece A) (k : A -> Piece B) :
  Forall P (fst m) ->
  (forall a, snd m = Returns a -> Forall P (fst (k a))) ->
  Forall P (fst (mbind (M := Piece) k m)).
Proof.
  intros Hm Hk. destruct m as [trace [a|e]]; simpl in *; [|exact Hm].
  apply Forall_app; split; [exact Hm|now apply Hk].
Qed.

(** X9. With Slack logging disabled, no run of the driver sends a
    notification, whatever the collaborators do. *)
Theorem no_notification_when_disabled :
  training_args.log_with_slack (training_arguments args) = false ->
  forall username message channel,
    E_send_slack_message username message channel ∉ fst (train W args).
Proof.
  intros Hslack.
  set (P := fun e : @Event Object =>
              match e with E_send_slack_message _ _ _ => False | _ => True end).
  assert (Hall : Forall P (fst (train W args))).
  { apply train_events.
    - unfold load_dataset. rewrite Hslack. trace_block ltac:(exact I).
    - intros ds. unfold resolve_vocabulary. trace_block ltac:(exact I).
    - intros e d v. unfold fit. rewrite Hslack. trace_block ltac:(exact I).
    - intros l m. unfold evaluate. rewrite Hslack. trace_block ltac:(exact I).
      apply report_events; [intros; exact I|congruence]. }
  rewrite Forall_forall in Hall.
  intros username message channel Hin. exact (Hall _ Hin).
Qed.

(** X10. Every notification of every run is sent under the experiment
    name, to [SLACK_CHANNEL], which is the empty string. *)
Theorem notifications_use_experiment_name username message channel :
  E_send_slack_message username message channel ∈ fst (train W args) ->
  username = training_args.get_experiment_name (get_training_args args) /\
  channel = "".
Proof.
  set (P := fun e : @Event Object =>
              match e with
              | E_send_slack_message u _ c =>
                  u = training_args.get_experiment_name (get_training_args args) /\
                  c = ""
              | _ => True
              end).
  assert (Hall : Forall P (fst (train W args))).
  { apply train_events.
    - unfold load_dataset. trace_block ltac:(simpl; auto).
    - intros ds. unfold resolve_vocabulary. trace_block ltac:(simpl; auto).
    - intros e d v. unfold fit. trace_block ltac:(simpl; auto).
    - intros l m. unfold evaluate. trace_block ltac:(simpl; auto).
      apply report_events; simpl; auto. }
  rewrite Forall_forall in Hall. intros Hin. exact (Hall _ Hin).
Qed.

(** X11. No run of the driver returns. When the collaborators of lines
    35-98 all return, the run ends at line 100 in [NameError] for
    [model_args], having called nothing since the reload of the best
    checkpoint and its notification; otherwise it ends in the exception
    of the collaborator that raised. *)
Theorem train_never_returns :
  fst (train W args) = fst (train_model W args) /\
  snd (train W args)
  = match snd (train_model W args) with
    | Returns _ => Raises (NameError "model_args")
    | Raises e => Raises e
    end.
Proof.
  unfold train.
  destruct (train_model W args) as [trace0 [[locals model]|e]];
    [|split; reflexivity].
  rewrite run_returns, evaluate_raises. simpl.
  split; [apply app_nil_r|reflexivity].
Qed.

(** X12. The only checkpoint a run ever loads is the one the training
    loop has just returned, and it loads it into the wrapper the factory
    built and the loop trained. *)
Theorem loads_what_train_loop_returned model filename :
  E_load model filename ∈ fst (train W args) ->
  exists vocabulary dataset experiment,
    get_model_wrapper W (get_model_args args) (training_arguments args)
      vocabulary (model_args.end_to_end (decoder_args args)) = Returns model /\
    train_loop W model dataset (get_game_args args) (get_evaluation_args args)
      (training_arguments args) experiment = Returns filename.
Proof.
  set (P := fun e : @Event Object =>
              match e with
              | E_load m f =>
                  exists vocabulary dataset experiment,
                    get_model_wrapper W (get_model_args args)
                      (training_arguments args) vocabulary
                      (model_args.end_to_end (decoder_args args)) = Returns m /\
                    train_loop W m dataset (get_game_args args)
                      (get_evaluation_args args) (training_arguments args)
                      experiment = Returns f
              | _ => True
              end).
  assert (Hall : Forall P (fst (train W args))).
  { apply train_events.
    - unfold load_dataset. trace_block ltac:(exact I).
    - intros ds. unfold resolve_vocabulary. trace_block ltac:(exact I).
    - intros e d v. unfold fit.
      apply trace_bind; [apply trace_one; exact I|intros _].
      apply trace_bind_returned; [apply trace_one; exact I|intros m Hm].
      apply trace_bind; [apply trace_one; exact I|intros _].
      apply trace_bind; [apply trace_one; exact I|intros _].
      apply trace_bind_returned; [apply trace_one; exact I|intros best Hbest].
      apply trace_bind;
        [apply trace_one; simpl in Hm, Hbest; exists v, d, e; auto|intros _].
      trace_block ltac:(exact I).
    - intros l m. unfold evaluate. trace_block ltac:(exact I).
      apply report_events; intros; exact I. }
  rewrite Forall_forall in Hall. intros Hin. exact (Hall _ Hin).
Qed.

(** X15. A run never goes back: its trace is the events of the setup,
    then those of the vocabulary, then those of building and training
    the model, then those of the evaluation, with logging and
    notifications in between. *)
Theorem run_goes_through_the_stages_in_order :
  exists setup vocabulary fitting evaluation,
    fst (train W args) = setup ++ vocabulary ++ fitting ++ evaluation /\
    within Setup setup /\ within Vocabulary vocabulary /\
    within Fitting fitting /\ within Evaluation evaluation.
Proof.
  pose proof load_dataset_within as H1. unfold train, train_model.
  destruct (load_dataset W args) as [t1 [locals|e]]; simpl in H1.
  2: { exists t1, [], [], []. rewrite !run_raises, !app_nil_r.
       repeat split; auto; constructor. }
  rewrite run_returns. cbn [fst snd].
  pose proof (resolve_vocabulary_within (dataset locals)) as H2.
  destruct (resolve_vocabulary W args (dataset locals)) as [t2 [vocabulary|e]];
    simpl in H2.
  2: { exists t1, t2, [], []. rewrite !run_raises. cbn [fst].
       rewrite !app_nil_r. repeat split; auto; constructor. }
  rewrite run_returns. cbn [fst snd].
  pose proof (fit_within (experiment locals) (dataset locals) vocabulary) as H3.
  destruct (fit W args (experiment locals) (dataset locals) vocabulary)
    as [t3 [[model best]|e]]; simpl in H3.
  2: { exists t1, t2, t3, []. rewrite !run_raises. cbn [fst].
       rewrite !app_nil_r. repeat split; auto; constructor. }
  rewrite !run_returns. cbn [fst snd].
  change (mret (M := Piece) (locals, model)) with (([] : Trace), Returns (locals, model)).
  cbn [fst snd]. rewrite run_returns. cbn [fst].
  exists t1, t2, t3, (fst (evaluate W args module_names locals model)).
  rewrite app_nil_r, <- ?app_assoc.
  repeat split; auto. apply evaluate_within.
Qed.

End DriverProperties.

(** ** Sample runs of the driver *)

Example train_plan_predictor_pretrained :
  training.train (sample.world true) (sample.args PLAN_PREDICTOR true false)
  = ([training.E_CrayonClient "localhost";
      training.E_logging_info "Starting experiment: run4";
      training.E_create_experiment "run4";
      training.E_save_args "experiments/run4";
      training.E_load_data training.TRAIN;
      training.E_load_data training.DEV;
      training.E_GameDataset 12 13 false true;
      training.E_logging_info "Loaded 7 games";
      training.E_save_validation_split 4 "experiments/run4";
      training.E_logging_info "Loading vocabulary from experiments/run3";
      training.E_load_vocabulary "experiments/run3";
      training.E_logging_info "Vocabulary contains 2 word types";
      training.E_get_model_wrapper ["go"; "left"] false;
      training.E_logging_info "Created model:";
      training.E_logging_info_object 5;
      training.E_train_loop 5 4 1;
      training.E_load 5 "experiments/run4/model_9.pt"],
     Raises (NameError "model_args")).
Proof. reflexivity. Qed.

Example train_action_generator_with_slack :
  training.train (sample.world true) (sample.args ACTION_GENERATOR false true)
  = ([training.E_CrayonClient "localhost";
      training.E_logging_info "Starting experiment: run4";
      training.E_create_experiment "run4";
      training.E_send_slack_message "run4" "Starting!" "";
      training.E_save_args "experiments/run4";
      training.E_load_data training.TRAIN;
      training.E_load_data training.DEV;
      training.E_GameDataset 12 13 false true;
      training.E_logging_info "Loaded 7 games";
      training.E_save_validation_split 4 "experiments/run4";
      training.E_save_vocabulary 4 "experiments/run4";
      training.E_logging_info "Vocabulary contains 2 word types";
      training.E_get_model_wrapper ["turn"; "right"] false;
      training.E_logging_info "Created model:";
      training.E_logging_info_object 5;
      training.E_train_loop 5 4 1;
      training.E_load 5 "experiments/run4/model_9.pt";
      training.E_send_slack_message "run4"
        "Model finished training! Best epoch filename: experiments/run4/model_9.pt" ""],
     Raises (NameError "model_args")).
Proof. reflexivity. Qed.

Example train_other_task :
  snd (training.train (sample.world true) (sample.args (OTHER_TASK 0) false true))
  = Raises (NameError "model_args").
Proof. reflexivity. Qed.

(** Lines 100-124 in a module that binds [model_args] as well. *)
Example evaluate_action_generator_when_bound :
  training.evaluate (sample.world true) (sample.args ACTION_GENERATOR false true)
    ("model_args" :: training.module_names) sample.locals 5
  = ([training.E_logging_info "Running on dev after training for action prediction...";
      training.E_execution_accuracies 5 [9];
      training.E_send_slack_message "run4" "accuracy after training: 0.50" "";
      training.E_logging_info "accuracy after training: 0.50"],
     Returns tt).
Proof. reflexivity. Qed.

Example evaluate_other_task_when_bound :
  training.evaluate (sample.world true) (sample.args (OTHER_TASK 0) false true)
    ("model_args" :: training.module_names) sample.locals 5
  = ([], Returns tt).
Proof. reflexivity. Qed.

(** ** The properties at the sample inputs *)

Lemma parameters_of_owned_network_witness :
  model_wrapper.owned_network (sample.wrapper 2 sample.net)
  = Some sample.net_on_device /\
  model_wrapper.named_parameters (sample.wrapper 2 sample.net)
  = Returns [("embedding.weight", 3); ("decoder.bias", 5)] /\
  model_wrapper.parameters (sample.wrapper 2 sample.net) = Returns [3; 5].
Proof.
  split; [reflexivity|].
  exact (parameters_of_owned_network (sample.wrapper 2 sample.net)
           sample.net_on_device eq_refl).
Defined.

Lemma get_predictions_of_owned_network_witness :
  model_wrapper.owned_network (sample.wrapper 2 sample.net)
  = Some sample.net_on_device /\
  model_wrapper.get_predictions sample.predict (sample.wrapper 2 sample.net) 40
  = Returns 42.
Proof.
  split; [reflexivity|].
  exact (proj1 (get_predictions_of_owned_network sample.predict
                  (sample.wrapper 2 sample.net) sample.net_on_device 40 eq_refl)).
Defined.

Lemma save_then_load_restores_witness :
  model_wrapper.owned_network (sample.wrapper 2 sample.net)
  = Some sample.net_on_device /\
  model_wrapper.owned_network (sample.wrapper 1 sample.other_net)
  = Some sample.other_net_on_device /\
  let saved := model_wrapper.save (sample.wrapper 2 sample.net) "best.pt" ∅ in
  let loaded := model_wrapper.load (sample.wrapper 1 sample.other_net) "best.pt"
                  (snd saved) in
  fst saved = Returns tt /\
  fst loaded = Returns tt /\
  model_wrapper.named_parameters (snd loaded)
  = Returns [("embedding.weight", 3); ("decoder.bias", 5)].
Proof.
  split; [reflexivity|]. split; [reflexivity|].
  destruct (save_then_load_restores (sample.wrapper 2 sample.net)
              (sample.wrapper 1 sample.other_net)
              sample.net_on_device sample.other_net_on_device "best.pt" ∅
              eq_refl eq_refl) as (Hsaved & _ & Hloaded & _ & Hnamed & _).
  exact (conj Hsaved (conj Hloaded Hnamed)).
Defined.

Lemma vocabulary_resolution_witness :
  let W := sample.world true in
  let pretrained := sample.args ACTION_GENERATOR true false in
  let fresh := sample.args ACTION_GENERATOR false false in
  (training.load_dataset W pretrained
   = (fst (training.load_dataset W pretrained), Returns sample.locals) /\
   parent_directory "experiments/run3/model_17.pt" "experiments/run3" /\
   training.E_load_vocabulary "experiments/run3" ∈ fst (training.train W pretrained) /\
   training.E_get_model_wrapper ["go"; "left"] false
   ∈ fst (training.train W pretrained)) /\
  (training.load_dataset W fresh
   = (fst (training.load_dataset W fresh), Returns sample.locals) /\
   training.E_save_vocabulary 4 "experiments/run4" ∈ fst (training.train W fresh) /\
   training.E_get_model_wrapper ["turn"; "right"] false
   ∈ fst (training.train W fresh)).
Proof.
  intros W pretrained fresh.
  assert (Hparent : parent_directory "experiments/run3/model_17.pt"
                      "experiments/run3").
  { left. exists "model_17.pt". split; reflexivity. }
  split; (split; [reflexivity|]).
  - split; [exact Hparent|].
    destruct (vocabulary_resolution W pretrained _ sample.locals eq_refl)
      as (trace1 & outcome & Heq & _ & Hdirectory & _).
    destruct (Hdirectory "experiments/run3" Hparent) as [Hload Hmodel].
    rewrite Heq. split.
    + apply Hload. reflexivity.
    + apply Hmodel. split; reflexivity.
  - destruct (vocabulary_resolution W fresh _ sample.locals eq_refl)
      as (trace1 & outcome & Heq & _ & Hsave & Hmodel).
    rewrite Heq. split.
    + apply Hsave. split; reflexivity.
    + apply Hmodel. repeat split.
Defined.

Lemma evaluation_never_starts_witness :
  let W := sample.world true in
  let plan := sample.args PLAN_PREDICTOR false false in
  let action := sample.args ACTION_GENERATOR false false in
  (training.train_model W plan
   = (fst (training.train_model W plan), Returns (sample.locals, 5)) /\
   training.train W plan
   = (fst (training.train_model W plan), Raises (NameError "model_args"))) /\
  (training.train_model W action
   = (fst (training.train_model W action), Returns (sample.locals, 5)) /\
   training.train W action
   = (fst (training.train_model W action), Raises (NameError "model_args"))).
Proof.
  intros W plan action. split; (split; [reflexivity|]).
  - exact (proj1 (evaluation_never_starts W plan _ sample.locals 5 eq_refl)).
  - exact (proj1 (evaluation_never_starts W action _ sample.locals 5 eq_refl)).
Defined.

Lemma final_accuracy_is_never_reported_witness :
  let W := sample.world true in
  let args := sample.args PLAN_PREDICTOR false true in
  training.task args = PLAN_PREDICTOR /\
  training_args.log_with_slack (training.training_arguments args) = true /\
  training.train_model W args
  = (fst (training.train_model W args), Returns (sample.locals, 5)) /\
  training.train W args
  = (fst (training.train_model W args), Raises (NameError "model_args")) /\
  snd (training.evaluate W args ("model_args" :: training.module_names)
         sample.locals 5)
  = Raises (NameError "final_goal_acc").
Proof.
  intros W args. do 3 (split; [reflexivity|]).
  destruct (final_accuracy_is_never_reported W args eq_refl eq_refl)
    as (Hreal & _ & Hbound).
  split.
  - exact (Hreal _ sample.locals 5 eq_refl).
  - rewrite (Hbound sample.locals 5 8 eq_refl). reflexivity.
Defined.

Lemma wrong_wrapper_never_reaches_assertion_witness :
  let W := sample.world false in
  let args := sample.args ACTION_GENERATOR false false in
  training.train_model W args
  = (fst (training.train_model W args), Returns (sample.locals, 5)) /\
  training.task args = ACTION_GENERATOR /\
  training.isinstance_ActionGeneratorModelWrapper W 5 = false /\
  training.train W args
  = (fst (training.train_model W args), Raises (NameError "model_args")).
Proof.
  intros W args. do 3 (split; [reflexivity|]).
  exact (proj1 (wrong_wrapper_never_reaches_assertion W args _ sample.locals 5
                  eq_refl eq_refl eq_refl)).
Defined.

(** ** Further properties at the sample inputs *)

Lemma put_on_device_owns_witness :
  model_wrapper._model (sample.assigned 2 sample.net)
  = model_wrapper.Network sample.net /\
  model_wrapper.net_parameters sample.net <> [] /\
  model_wrapper.owned_network
    (snd (model_wrapper._put_on_device 2 (sample.assigned 2 sample.net)))
  = Some sample.net_on_device.
Proof.
  split; [reflexivity|]. split; [discriminate|].
  exact (proj1 (proj2 (put_on_device_owns 2 (sample.assigned 2 sample.net)
                         sample.net eq_refl ltac:(discriminate)))).
Defined.

Lemma put_on_device_without_parameters_witness :
  model_wrapper._model (sample.assigned 2 sample.empty_net)
  = model_wrapper.Network sample.empty_net /\
  model_wrapper.net_parameters sample.empty_net = [] /\
  fst (model_wrapper._put_on_device 2 (sample.assigned 2 sample.empty_net))
  = Raises StopIteration.
Proof.
  split; [reflexivity|]. split; [reflexivity|].
  exact (proj1 (put_on_device_without_parameters 2
                  (sample.assigned 2 sample.empty_net) sample.empty_net
                  eq_refl eq_refl)).
Defined.

Lemma second_put_on_device_wraps_again_witness :
  model_wrapper.owned_network (sample.wrapper 2 sample.net)
  = Some sample.net_on_device /\
  model_wrapper._parallelized (sample.wrapper 2 sample.net) = true /\
  model_wrapper.net_parameters sample.net_on_device <> [] /\
  model_wrapper.save
    (snd (model_wrapper._put_on_device 2 (sample.wrapper 2 sample.net)))
    "best.pt" ∅
  = (Raises (AttributeError "save"), ∅).
Proof.
  split; [reflexivity|]. split; [reflexivity|]. split; [discriminate|].
  destruct (second_put_on_device_wraps_again sample.predict 2
              (sample.wrapper 2 sample.net) sample.net_on_device "best.pt" ∅ 40
              eq_refl eq_refl ltac:(discriminate))
    as (_ & _ & Hsave & _).
  exact Hsave.
Defined.

Lemma train_and_eval_set_the_mode_witness :
  model_wrapper.owned_network (sample.wrapper 2 sample.net)
  = Some sample.net_on_device /\
  model_wrapper.owned_network
    (snd (model_wrapper.eval (sample.wrapper 2 sample.net)))
  = Some (model_wrapper.in_mode false sample.net_on_device).
Proof.
  split; [reflexivity|].
  exact (proj2 (proj1 (proj2 (train_and_eval_set_the_mode
                                (sample.wrapper 2 sample.net)
                                sample.net_on_device eq_refl)))).
Defined.

Lemma parameters_change_only_by_load_witness :
  let st := {| model_wrapper.self := sample.wrapper 2 sample.net;
               model_wrapper.files := ∅ |} in
  model_wrapper.owned_network (model_wrapper.self st)
  = Some sample.net_on_device /\
  forallb model_wrapper.keeps_parameters sample.calls = true /\
  exists mode,
    model_wrapper.owned_network
      (model_wrapper.self (model_wrapper.lifetime sample.calls st))
    = Some (model_wrapper.in_mode mode sample.net_on_device).
Proof.
  intros st. split; [reflexivity|]. split; [reflexivity|].
  exact (parameters_change_only_by_load sample.calls st sample.net_on_device
           eq_refl eq_refl).
Defined.

Lemma wrapper_keeps_its_shape_witness :
  let st := {| model_wrapper.self := sample.wrapper 2 sample.net;
               model_wrapper.files := ∅ |} in
  let calls := sample.calls ++ [model_wrapper.call_load "best.pt";
                                model_wrapper.call_load "missing.pt"] in
  model_wrapper.owned_network (model_wrapper.self st)
  = Some sample.net_on_device /\
  forallb model_wrapper.uses_model calls = true /\
  exists net',
    model_wrapper.owned_network
      (model_wrapper.self (model_wrapper.lifetime calls st))
    = Some net' /\
    model_wrapper.net_is_cuda net' = model_wrapper.net_is_cuda sample.net_on_device.
Proof.
  intros st calls. split; [reflexivity|]. split; [reflexivity|].
  exact (wrapper_keeps_its_shape calls st sample.net_on_device eq_refl eq_refl).
Defined.

Lemma filepath_is_directory_and_file_witness :
  PyStr.contains slash "experiments/run3/model_17.pt" = true /\
  exists b, PyStr.contains slash b = false /\
            "experiments/run3/model_17.pt"
            = vocab_file "experiments/run3/model_17.pt" +:+ String slash b.
Proof.
  split; [reflexivity|].
  exact (filepath_is_directory_and_file "experiments/run3/model_17.pt" eq_refl).
Defined.

Lemma no_notification_when_disabled_witness :
  let W := sample.world true in
  let args := sample.args ACTION_GENERATOR false false in
  training_args.log_with_slack (training.training_arguments args) = false /\
  training.E_send_slack_message "run4" "Starting!" "" ∉ fst (training.train W args).
Proof.
  intros W args. split; [reflexivity|].
  exact (no_notification_when_disabled W args eq_refl "run4" "Starting!" "").
Defined.

Lemma notifications_use_experiment_name_witness :
  let W := sample.world true in
  let args := sample.args ACTION_GENERATOR false true in
  training.E_send_slack_message "run4" "Starting!" "" ∈ fst (training.train W args) /\
  "run4" = training_args.get_experiment_name (training.get_training_args args) /\
  "" = "".
Proof.
  intros W args.
  assert (Hin : training.E_send_slack_message "run4" "Starting!" ""
                ∈ fst (training.train W args)).
  { do 3 apply list_elem_of_further. apply list_elem_of_here. }
  split; [exact Hin|].
  exact (notifications_use_experiment_name W args "run4" "Starting!" "" Hin).
Defined.

Lemma loads_what_train_loop_returned_witness :
  let W := sample.world true in
  let args := sample.args ACTION_GENERATOR false false in
  training.E_load 5 "experiments/run4/model_9.pt" ∈ fst (training.train W args) /\
  exists vocabulary dataset experiment,
    training.get_model_wrapper W (training.get_model_args args)
      (training.training_arguments args) vocabulary
      (model_args.end_to_end (training.decoder_args args)) = Returns 5 /\
    training.train_loop W 5 dataset (training.get_game_args args)
      (training.get_evaluation_args args) (training.training_arguments args)
      experiment = Returns "experiments/run4/model_9.pt".
Proof.
  intros W args.
  assert (Hin : training.E_load 5 "experiments/run4/model_9.pt"
                ∈ fst (training.train W args)).
  { do 15 apply list_elem_of_further. apply list_elem_of_here. }
  split; [exact Hin|].
  exact (loads_what_train_loop_returned W args 5 "experiments/run4/model_9.pt" Hin).
Defined.
